(** * windows_exporter: scheduled_task, netframework (CLR exceptions, CLR JIT)
      and vmware collectors

    A shallow embedding of the four collector files.  Go code that sends
    on the metric channel, mutates the collector or may panic is written in
    a small state-and-panic monad; Go [error] values are [option Error];
    [float64] is the IEEE 754 binary64 format of [SpecFloat]; the libraries
    the collectors call into (prometheus, go-ole, mi, pdh, regexp) are
    modelled by the part of their behaviour the collectors rely on. *)

From Stdlib Require Import ZArith NArith List String Ascii Bool Lia SpecFloat.
Import ListNotations.

#[local] Set Warnings "-register-all".

Local Open Scope string_scope.
Local Open Scope Z_scope.

(** ** Go runtime: control flow with panics *)

Module golang.

(** The result of running a Go function body from a state [St]: it either
    returns a value or panics; the state reached is kept in both cases
    (what was sent on a channel before a panic stays sent). *)
Inductive outcome (St A : Type) : Type :=
| Returns (a : A) (s : St)
| Panics (msg : string) (s : St).
Arguments Returns {St A} a s.
Arguments Panics {St A} msg s.

Definition go (St A : Type) : Type := St -> outcome St A.

Definition ret {St A} (a : A) : go St A := fun s => Returns a s.

Definition bind {St A B} (m : go St A) (k : A -> go St B) : go St B :=
  fun s => match m s with
           | Returns a s' => k a s'
           | Panics msg s' => Panics msg s'
           end.

Definition panic {St A} (msg : string) : go St A := fun s => Panics msg s.

Definition get {St} : go St St := fun s => Returns s s.

Definition modify {St} (f : St -> St) : go St unit := fun s => Returns tt (f s).

(** [for _, x := range l { body }], the body ending either normally or by
    [continue]. *)
Fixpoint forRange {St A} (l : list A) (body : A -> go St unit) : go St unit :=
  match l with
  | [] => ret tt
  | x :: l' => bind (body x) (fun _ => forRange l' body)
  end.

(** [s[i]]: indexing a slice panics when the index is out of range. *)
Definition index {St A} (s : list A) (i : nat) : go St A :=
  match nth_error s i with
  | Some x => ret x
  | None => panic "runtime error: index out of range"
  end.

Definition returned {St A} (o : outcome St A) : option A :=
  match o with Returns a _ => Some a | Panics _ _ => None end.

Definition final {St A} (o : outcome St A) : St :=
  match o with Returns _ s => s | Panics _ s => s end.

Definition panicked {St A} (o : outcome St A) : bool :=
  match o with Returns _ _ => false | Panics _ _ => true end.

End golang.

Import golang.

Declare Scope go_scope.
Delimit Scope go_scope with go.
Notation "x <- c1 ;; c2" := (bind c1 (fun x => c2))
  (at level 61, c1 at next level, right associativity) : go_scope.
Notation "c1 ;; c2" := (bind c1 (fun _ => c2))
  (at level 61, right associativity) : go_scope.
Local Open Scope go_scope.

(** ** Go errors: [errors.New], [fmt.Errorf] with [%w], [errors.Join] *)

Module errors.

Inductive Error : Type :=
| errorString (text : string)
| oleError (hr : Z) (description : string)
| wrapError (msg : string) (err : Error)
| joinError (errs : list Error).

(** A Go [error] interface value; [nil] is [None]. *)
Definition error : Type := option Error.

(** [errors.Join]'s message joins the messages with a newline. *)
Fixpoint ErrorText (e : Error) : string :=
  match e with
  | errorString text => text
  | oleError _ description => description
  | wrapError msg _ => msg
  | joinError errs =>
      (fix joined (l : list Error) : string :=
         match l with
         | [] => ""
         | [x] => ErrorText x
         | x :: l' => ErrorText x ++ String "010"%char (joined l')
         end) errs
  end.

(** [fmt.Errorf(prefix + "%w", err)]. *)
Definition Errorf (prefix : string) (err : Error) : Error :=
  wrapError (prefix ++ ErrorText err) err.

Definition nonNil (errs : list error) : list Error :=
  flat_map (fun e => match e with Some x => [x] | None => [] end) errs.

(** [errors.Join(errs...)]: nil when no argument is non-nil, otherwise an
    error wrapping every non-nil argument, in order. *)
Definition Join (errs : list error) : error :=
  match nonNil errs with
  | [] => None
  | l => Some (joinError l)
  end.

Fixpoint Error_eqb (a b : Error) {struct a} : bool :=
  match a, b with
  | errorString s, errorString t => String.eqb s t
  | oleError h d, oleError h' d' => Z.eqb h h' && String.eqb d d'
  | wrapError m e, wrapError m' e' => String.eqb m m' && Error_eqb e e'
  | joinError l, joinError l' =>
      (fix all2 (l : list Error) (l' : list Error) {struct l} : bool :=
         match l, l' with
         | [], [] => true
         | x :: r, y :: r' => Error_eqb x y && all2 r r'
         | _, _ => false
         end) l l'
  | _, _ => false
  end.

(** [errors.Is(e, target)]: [e] is [target], or unwraps (through [%w] or
    through any branch of a join) to it. *)
Fixpoint Is (e target : Error) {struct e} : bool :=
  Error_eqb e target ||
  match e with
  | wrapError _ inner => Is inner target
  | joinError errs =>
      (fix any (l : list Error) : bool :=
         match l with
         | [] => false
         | x :: r => Is x target || any r
         end) errs
  | _ => false
  end.

(** [errors.As(err, &oleCode)] for [*ole.OleError]: the first [oleError]
    met while unwrapping, with its code. *)
Fixpoint AsOleError (e : Error) : option Z :=
  match e with
  | oleError hr _ => Some hr
  | wrapError _ inner => AsOleError inner
  | joinError errs =>
      (fix first (l : list Error) : option Z :=
         match l with
         | [] => None
         | x :: r => match AsOleError x with Some hr => Some hr | None => first r end
         end) errs
  | errorString _ => None
  end.

End errors.

Import errors.

(** ** float64 *)

Module float64.

Definition prec : Z := 53.
Definition emax : Z := 1024.

Definition float64 : Type := spec_float.

(** [float64(n)] for an integer [n]: rounding to nearest even. *)
Definition ofZ (n : Z) : float64 := binary_normalize prec emax n 0 false.

Definition div (x y : float64) : float64 := SFdiv prec emax x y.

Definition zero : float64 := S754_zero false.
Definition one : float64 := Eval vm_compute in ofZ 1.

Definition is_finite (x : float64) : bool :=
  match x with
  | S754_zero _ | S754_finite _ _ _ => true
  | S754_infinity _ | S754_nan => false
  end.

(** The integer a float64 stands for, when it is finite and integral. *)
Definition toZ (x : float64) : option Z :=
  match x with
  | S754_zero _ => Some 0
  | S754_finite s m e =>
      let a := if s then Z.neg m else Z.pos m in
      if 0 <=? e then Some (a * 2 ^ e)
      else if a mod 2 ^ (- e) =? 0 then Some (a / 2 ^ (- e)) else None
  | _ => None
  end.

Definition leb (x y : float64) : bool := SFleb x y.

(** Is [x] between zero and one? *)
Definition unitFraction (x : float64) : bool := leb zero x && leb x one.

(** By how much the exponent of a 53- or 54-digit quotient grows when it
    is brought down to 53 digits. *)
Definition carry (q : Z) : Z := if q <? 2 ^ 53 then 0 else 1.

(** The float64 literals [0.5] and [2.0]. *)
Definition half : float64 := S754_finite false 4503599627370496 (-53).
Definition two : float64 := S754_finite false 4503599627370496 (-51).

End float64.

Import float64.

(** ** strings *)

Module strings.

Definition lowerAscii (c : ascii) : ascii :=
  let n := nat_of_ascii c in
  if (Nat.leb 65 n && Nat.leb n 90)%bool then ascii_of_nat (n + 32) else c.

(** [strings.ToLower] on ASCII text (the collectors apply it to the five
    names returned by [TaskState.String] only). *)
Fixpoint ToLower (s : string) : string :=
  match s with
  | EmptyString => EmptyString
  | String c r => String (lowerAscii c) (ToLower r)
  end.

(** [strings.ReplaceAll(s, old, new)] for one-character [old] and [new]. *)
Fixpoint ReplaceAll1 (s : string) (old new : ascii) : string :=
  match s with
  | EmptyString => EmptyString
  | String c r => String (if Ascii.eqb c old then new else c) (ReplaceAll1 r old new)
  end.

End strings.

(** ** prometheus client: descriptors and constant metrics *)

Module prometheus.

Record Desc : Type := mkDesc {
  fqName : string;
  help : string;
  variableLabels : list string
}.

Inductive ValueType : Type := CounterValue | GaugeValue.

Record Metric : Type := mkMetric {
  desc : Desc;
  valType : ValueType;
  value : float64;
  labelValues : list string
}.

(** [prometheus.BuildFQName]: the non-empty parts joined by underscores;
    empty when the name is empty. *)
Definition BuildFQName (namespace subsystem name : string) : string :=
  if String.eqb name "" then ""
  else
    let ns := if String.eqb namespace "" then "" else namespace ++ "_" in
    let ss := if String.eqb subsystem "" then "" else subsystem ++ "_" in
    ns ++ ss ++ name.

(** [prometheus.NewDesc] returns a non-nil pointer. *)
Definition NewDesc (fqName help : string) (variableLabels : list string) : option Desc :=
  Some (mkDesc fqName help variableLabels).

(** [prometheus.MustNewConstMetric]: panics when the number of label
    values differs from the descriptor's number of labels (a nil
    descriptor is dereferenced). *)
Definition MustNewConstMetric {St} (d : option Desc) (vt : ValueType)
    (v : float64) (lvs : list string) : go St Metric :=
  match d with
  | None => panic "runtime error: invalid memory address or nil pointer dereference"
  | Some d =>
      if Nat.eqb (List.length lvs) (List.length (variableLabels d))
      then ret (mkMetric d vt v lvs)
      else panic "inconsistent label cardinality"
  end.

(** The metric channel, as the sequence of metrics sent so far. *)
Definition Chan : Type := list Metric.

End prometheus.

Import prometheus.

(** ** regexp: a compiled regular expression, as its [MatchString] *)

Module regexp.

Record Regexp : Type := mkRegexp { matches : string -> bool }.

(** [re.MatchString(s)] on a [*regexp.Regexp]; a nil pointer is dereferenced. *)
Definition MatchString {St} (re : option Regexp) (s : string) : go St bool :=
  match re with
  | None => panic "runtime error: invalid memory address or nil pointer dereference"
  | Some r => ret (matches r s)
  end.

End regexp.

Import regexp.

(** ** go-ole: the Task Scheduler as seen through COM automation *)

Module ole.

Definition S_OK : Z := 0.

(** A [*ole.VARIANT] returned by [oleutil.GetProperty]: its raw [Val]
    (an int64), what [ToString()] gives, what [Value().(bool)] gives (a
    value only when the variant holds a boolean), and the result of
    [Clear()]. *)
Record VARIANT : Type := mkVARIANT {
  Val : Z;
  ToString : string;
  ValueBool : option bool;
  Clear : error
}.

(** The IDispatch of a registered task: [oleutil.GetProperty(task, name)]. *)
Record TaskObject : Type := mkTaskObject {
  GetProperty : string -> VARIANT + Error
}.

(** The IDispatch of a task folder: what [GetTasks] and [GetFolders]
    answer, each a collection or an error; [folderPath] identifies the
    object. *)
Inductive Folder : Type :=
| mkFolder (folderPath : string)
           (GetTasks : list TaskObject + Error)
           (GetFolders : list Folder + Error).

(** The automation calls made on folder objects, in order. *)
Inductive Call : Type :=
| CallGetTasks (folder : string)
| CallGetFolders (folder : string).

(** [oleutil.ForEach(collection, f)]: [f] on every item in order, stopping
    at the first error. *)
Definition ForEach {St A} (f : A -> go St error) : list A -> go St error :=
  fix each (items : list A) : go St error :=
    match items with
    | [] => ret None
    | v :: rest =>
        ferr <- f v ;;
        match ferr with
        | Some e => ret (Some e)
        | None => each rest
        end
    end.

(** What the host answers to the calls that open the Task Scheduler
    service. *)
Record Host : Type := mkHost {
  CoInitializeEx : error;
  ClassIDFrom : error;
  CreateInstance : bool * error;   (* is the object non-nil, and the error *)
  QueryInterface : error;
  Connect : error;
  GetFolder : Folder + Error       (* the root folder *)
}.

End ole.

Import ole.

(** ** package scheduled_task *)

Module scheduled_task.

Section Collector.

(** [types.Namespace], [types.RegExpEmpty] and [types.RegExpAny] are
    declared in a package that is not part of these files. *)
Variable Namespace : string.
Variables RegExpEmpty RegExpAny : Regexp.

Definition collectorName : string := "scheduled_task".

Record Config : Type := mkConfig {
  TaskExclude : option Regexp;
  TaskInclude : option Regexp
}.

Definition ConfigDefaults : Config :=
  {| TaskExclude := Some RegExpEmpty; TaskInclude := Some RegExpAny |}.

Record Collector : Type := mkCollector {
  config : Config;
  lastResult : option Desc;
  missedRuns : option Desc;
  state : option Desc
}.

(** [type TaskState uint] and [type TaskResult uint]. *)
Definition TaskState : Type := Z.
Definition TaskResult : Type := Z.

Definition uintModulus : Z := 2 ^ 64.

Definition TASK_STATE_UNKNOWN : TaskState := 0.
Definition TASK_STATE_DISABLED : TaskState := 1.
Definition TASK_STATE_QUEUED : TaskState := 2.
Definition TASK_STATE_READY : TaskState := 3.
Definition TASK_STATE_RUNNING : TaskState := 4.

Definition SCHED_S_SUCCESS : TaskResult := 0x0.
Definition SCHED_S_TASK_HAS_NOT_RUN : TaskResult := 0x00041303.

Record ScheduledTask : Type := mkScheduledTask {
  Name : string;
  Path : string;
  Enabled : bool;
  State : TaskState;
  MissedRunsCount : float64;
  LastTaskResult : TaskResult
}.

Definition ScheduledTasks : Type := list ScheduledTask.

(** [New(config)]; a nil [config] is [None]. *)
Definition New (cfg : option Config) : Collector :=
  let config := match cfg with None => ConfigDefaults | Some c => c end in
  let config :=
    match TaskExclude config with
    | None => {| TaskExclude := TaskExclude ConfigDefaults; TaskInclude := TaskInclude config |}
    | Some _ => config
    end in
  let config :=
    match TaskInclude config with
    | None => {| TaskExclude := TaskExclude config; TaskInclude := TaskInclude ConfigDefaults |}
    | Some _ => config
    end in
  {| config := config; lastResult := None; missedRuns := None; state := None |}.

Definition GetName (c : Collector) : string := collectorName.

Definition Build (c : Collector) : Collector * error :=
  let c := {| config := config c;
              lastResult := NewDesc (BuildFQName Namespace collectorName "last_result")
                "The result that was returned the last time the registered task was run"
                ["task"];
              missedRuns := missedRuns c; state := state c |} in
  let c := {| config := config c; lastResult := lastResult c;
              missedRuns := NewDesc (BuildFQName Namespace collectorName "missed_runs")
                "The number of times the registered task missed a scheduled run"
                ["task"];
              state := state c |} in
  let c := {| config := config c; lastResult := lastResult c; missedRuns := missedRuns c;
              state := NewDesc (BuildFQName Namespace collectorName "state")
                "The current state of a scheduled task"
                ["task"; "state"] |} in
  (c, None).

Definition TASK_STATES : list string := ["disabled"; "queued"; "ready"; "running"; "unknown"].

(** [func (t TaskState) String() string] *)
Definition TaskState_String (t : TaskState) : string :=
  if t =? TASK_STATE_UNKNOWN then "Unknown"
  else if t =? TASK_STATE_DISABLED then "Disabled"
  else if t =? TASK_STATE_QUEUED then "Queued"
  else if t =? TASK_STATE_READY then "Ready"
  else if t =? TASK_STATE_RUNNING then "Running"
  else "".

(** What the collector works on: the metric channel, the slice behind the
    [*ScheduledTasks] pointer that the fetch functions append to, and the
    automation calls made so far. *)
Record World : Type := mkWorld {
  ch : Chan;
  scheduledTasks : ScheduledTasks;
  calls : list Call
}.

Definition send (m : Metric) : go World unit :=
  modify (fun w => {| ch := (ch w ++ [m])%list; scheduledTasks := scheduledTasks w; calls := calls w |}).

Definition appendTask (t : ScheduledTask) : go World unit :=
  modify (fun w => {| ch := ch w; scheduledTasks := (scheduledTasks w ++ [t])%list; calls := calls w |}).

Definition called (c : Call) : go World unit :=
  modify (fun w => {| ch := ch w; scheduledTasks := scheduledTasks w; calls := (calls w ++ [c])%list |}).

Definition zeroTask : ScheduledTask :=
  {| Name := ""; Path := ""; Enabled := false; State := 0;
     MissedRunsCount := zero; LastTaskResult := 0 |}.

(** [parseTask]: the six properties are read in order, the first failure
    is returned with the zero task.  The deferred [Clear] calls assign to
    the local [err] after the results have been set, so their errors do
    not reach the caller. *)
Definition parseTask (task : TaskObject) : ScheduledTask * error :=
  match GetProperty task "Name" with
  | inr e => (zeroTask, Some e)
  | inl taskNameVar =>
  match GetProperty task "Path" with
  | inr e => (zeroTask, Some e)
  | inl taskPathVar =>
  match GetProperty task "Enabled" with
  | inr e => (zeroTask, Some e)
  | inl taskEnabledVar =>
  match GetProperty task "State" with
  | inr e => (zeroTask, Some e)
  | inl taskStateVar =>
  match GetProperty task "NumberOfMissedRuns" with
  | inr e => (zeroTask, Some e)
  | inl taskNumberOfMissedRunsVar =>
  match GetProperty task "LastTaskResult" with
  | inr e => (zeroTask, Some e)
  | inl taskLastTaskResultVar =>
      ({| Name := ToString taskNameVar;
          Path := strings.ReplaceAll1 (ToString taskPathVar) "\"%char "/"%char;
          Enabled := match ValueBool taskEnabledVar with Some val => val | None => false end;
          State := Val taskStateVar mod uintModulus;
          MissedRunsCount := ofZ (Val taskNumberOfMissedRunsVar);
          LastTaskResult := Val taskLastTaskResultVar mod uintModulus |}, None)
  end end end end end end.

Definition fetchTasksInFolder (folder : Folder) : go World error :=
  match folder with
  | mkFolder path getTasks _ =>
      called (CallGetTasks path) ;;
      match getTasks with
      | inr e => ret (Some e)
      | inl tasks =>
          ForEach (fun task =>
            let (parsedTask, err) := parseTask task in
            match err with
            | Some e => ret (Some e)
            | None => appendTask parsedTask ;; ret None
            end) tasks
      end
  end.

Fixpoint fetchTasksRecursively (folder : Folder) : go World error :=
  err <- fetchTasksInFolder folder ;;
  match err with
  | Some e => ret (Some e)
  | None =>
      match folder with
      | mkFolder path _ getFolders =>
          called (CallGetFolders path) ;;
          match getFolders with
          | inr e => ret (Some e)
          | inl subFolders =>
              ForEach (fun subFolder => fetchTasksRecursively subFolder) subFolders
          end
      end
  end.

Definition S_FALSE : Z := 0x00000001.

Definition resetTasks : go World unit :=
  modify (fun w => {| ch := ch w; scheduledTasks := []; calls := calls w |}).

Definition getScheduledTasks (h : Host) : go World (ScheduledTasks * error) :=
  resetTasks ;;
  let refused :=
    match CoInitializeEx h with
    | Some err =>
        match AsOleError err with
        | Some code =>
            if negb (code =? S_OK) && negb (code =? S_FALSE) then Some err else None
        | None => None
        end
    | None => None
    end in
  match refused with
  | Some err => ret ([], Some err)
  | None =>
  match ClassIDFrom h with
  | Some err => ret ([], Some err)
  | None =>
  let (nonNil, err) := CreateInstance h in
  match err, nonNil with
  | Some _, _ | None, false => ret ([], err)
  | None, true =>
  match QueryInterface h with
  | Some _ => panic "MustQueryInterface"
  | None =>
  match Connect h with
  | Some err => ret ([], Some err)
  | None =>
  match GetFolder h with
  | inr err => ret ([], Some err)
  | inl rootFolderObj =>
      err <- fetchTasksRecursively rootFolderObj ;;
      w <- get ;;
      ret (scheduledTasks w, err)
  end end end end end end.

(** The body of the loop over the scheduled tasks in [collect]. *)
Definition collectTask (c : Collector) (task : ScheduledTask) : go World unit :=
  excluded <- MatchString (TaskExclude (config c)) (Path task) ;;
  if excluded then ret tt else
  included <- MatchString (TaskInclude (config c)) (Path task) ;;
  if negb included then ret tt else
  forRange TASK_STATES (fun state' =>
    let stateValue :=
      if String.eqb (strings.ToLower (TaskState_String (State task))) state'
      then one else zero in
    m <- MustNewConstMetric (state c) GaugeValue stateValue [Path task; state'] ;;
    send m) ;;
  if LastTaskResult task =? SCHED_S_TASK_HAS_NOT_RUN then ret tt else
  let lastResult' := if LastTaskResult task =? SCHED_S_SUCCESS then one else zero in
  m <- MustNewConstMetric (lastResult c) GaugeValue lastResult' [Path task] ;;
  send m ;;
  m <- MustNewConstMetric (missedRuns c) GaugeValue (MissedRunsCount task) [Path task] ;;
  send m.

Definition collect (c : Collector) (h : Host) : go World error :=
  r <- getScheduledTasks h ;;
  let (scheduledTasks, err) := r in
  match err with
  | Some e => ret (Some (Errorf "get scheduled tasks: " e))
  | None => forRange scheduledTasks (collectTask c) ;; ret None
  end.

Definition Collect (c : Collector) (h : Host) : go World error := collect c h.

(** *** What the functions above are expected to produce *)

(** The samples sent on the channel, appended to a world. *)
Definition emitAll (ms : list Metric) (w : World) : World :=
  {| ch := (ch w ++ ms)%list; scheduledTasks := scheduledTasks w; calls := calls w |}.

Definition sample (d : option Desc) (vt : ValueType) (v : float64) (lvs : list string) : list Metric :=
  match d with
  | Some d => [mkMetric d vt v lvs]
  | None => []
  end.

(** The state samples of one task, one per name of [TASK_STATES]. *)
Definition stateSamples (c : Collector) (task : ScheduledTask) : list Metric :=
  flat_map (fun state' =>
    sample (state c) GaugeValue
      (if String.eqb (strings.ToLower (TaskState_String (State task))) state' then one else zero)
      [Path task; state']) TASK_STATES.

(** The last_result and missed_runs samples of one task. *)
Definition resultSamples (c : Collector) (task : ScheduledTask) : list Metric :=
  if LastTaskResult task =? SCHED_S_TASK_HAS_NOT_RUN then []
  else (sample (lastResult c) GaugeValue
          (if LastTaskResult task =? SCHED_S_SUCCESS then one else zero) [Path task]
        ++ sample (missedRuns c) GaugeValue (MissedRunsCount task) [Path task])%list.

Definition taskSamples (c : Collector) (task : ScheduledTask) : list Metric :=
  (stateSamples c task ++ resultSamples c task)%list.

(** Does a path match [include] and not match [exclude]? *)
Definition passes (include exclude : Regexp) (path : string) : bool :=
  matches include path && negb (matches exclude path).

(** Every task object below a folder, the folder's own tasks first, then
    those of its sub-folders from first to last. *)
Fixpoint folderTasks (folder : Folder) : list TaskObject :=
  match folder with
  | mkFolder _ getTasks getFolders =>
      (match getTasks with inl tasks => tasks | inr _ => [] end ++
       match getFolders with
       | inl subFolders => flat_map folderTasks subFolders
       | inr _ => []
       end)%list
  end.

(** The paths of a folder and of every folder below it. *)
Fixpoint folderPaths (folder : Folder) : list string :=
  match folder with
  | mkFolder path _ getFolders =>
      path :: match getFolders with
              | inl subFolders => flat_map folderPaths subFolders
              | inr _ => []
              end
  end.

(** The calls a complete traversal makes. *)
Fixpoint folderCalls (folder : Folder) : list Call :=
  match folder with
  | mkFolder path _ getFolders =>
      CallGetTasks path :: CallGetFolders path ::
        match getFolders with
        | inl subFolders => flat_map folderCalls subFolders
        | inr _ => []
        end
  end.

Definition parses (task : TaskObject) : bool :=
  match snd (parseTask task) with None => true | Some _ => false end.

(** A folder tree in which no automation call fails. *)
Fixpoint healthy (folder : Folder) : bool :=
  match folder with
  | mkFolder _ getTasks getFolders =>
      match getTasks with inl tasks => forallb parses tasks | inr _ => false end &&
      match getFolders with
      | inl subFolders => forallb healthy subFolders
      | inr _ => false
      end
  end.

Definition fetched (tasks : list TaskObject) (calls' : list Call) (w : World) : World :=
  {| ch := ch w;
     scheduledTasks := (scheduledTasks w ++ map (fun t => fst (parseTask t)) tasks)%list;
     calls := (calls w ++ calls')%list |}.

Definition Call_eqb (a b : Call) : bool :=
  match a, b with
  | CallGetTasks p, CallGetTasks q => String.eqb p q
  | CallGetFolders p, CallGetFolders q => String.eqb p q
  | _, _ => false
  end.

Definition countCall (c : Call) (l : list Call) : nat :=
  List.length (filter (Call_eqb c) l).

(** The world once [getScheduledTasks] has listed [tasks] with the calls
    [calls']: the local slice starts empty, whatever was there before. *)
Definition listed (tasks : ScheduledTasks) (calls' : list Call) (w : World) : World :=
  {| ch := ch w; scheduledTasks := tasks; calls := (calls w ++ calls')%list |}.

(** What a traversal leaves behind, also when a call fails: it returns
    after appending the tasks [doneT] and making the calls [doneC], which
    start the lists of a complete traversal and are all of them when no
    error is returned. *)
Definition stopsEarly (folder : Folder) : Prop :=
  exists err doneT doneC,
    (exists restT, folderTasks folder = (doneT ++ restT)%list) /\
    (exists restC, folderCalls folder = (doneC ++ restC)%list) /\
    (err = None <-> healthy folder = true) /\
    (err = None -> doneT = folderTasks folder /\ doneC = folderCalls folder) /\
    forall w, fetchTasksRecursively folder w = Returns err (fetched doneT doneC w).

(** The properties [parseTask] reads, in the order it reads them. *)
Definition taskProperties : list string :=
  ["Name"; "Path"; "Enabled"; "State"; "NumberOfMissedRuns"; "LastTaskResult"].

(** The state label and value of each sample. *)
Definition labelled (samples : list Metric) : list (string * float64) :=
  map (fun m => (nth 1 (labelValues m) "", value m)) samples.

End Collector.

End scheduled_task.

(** ** package netframework: CLR exceptions and CLR JIT *)

Module netframework.

(** The typed rows of the two WMI classes; [uint32] fields are integers in
    the range checked by [uint32]. *)
Definition uint32 (v : Z) : Prop := 0 <= v <= 4294967295.

Module NETCLRExceptions.
Record Win32_PerfRawData_NETFramework_NETCLRExceptions : Type := mkRow {
  Name : string;
  NumberofExcepsThrown : Z;
  NumberofExcepsThrownPersec : Z;
  NumberofFiltersPersec : Z;
  NumberofFinallysPersec : Z;
  ThrowToCatchDepthPersec : Z
}.
End NETCLRExceptions.

Module NETCLRJit.
Record Win32_PerfRawData_NETFramework_NETCLRJit : Type := mkRow {
  Name : string;
  Frequency_PerfTime : Z;
  ILBytesJittedPersec : Z;
  NumberofILBytesJitted : Z;
  NumberofMethodsJitted : Z;
  PercentTimeinJit : Z;
  StandardJitFailures : Z;
  TotalNumberofILBytesJitted : Z
}.
End NETCLRJit.

Import NETCLRExceptions NETCLRJit.

(** The [*mi.Session] of the collector: what [Query] puts in [dst] and
    the error it returns, for each of the two [SELECT * FROM ...] queries. *)
Record Session : Type := mkSession {
  Query_NETCLRExceptions : list Win32_PerfRawData_NETFramework_NETCLRExceptions * error;
  Query_NETCLRJit : list Win32_PerfRawData_NETFramework_NETCLRJit * error
}.

Section Collector.

(** [types.Namespace], and the constants [Name], [collectorClrExceptions]
    and [collectorClrJIT] of this package, are declared in files that are
    not part of these. *)
Variable Namespace : string.
Variables collectorName collectorClrExceptions collectorClrJIT : string.

(** The fields of the package's [Collector] that the two files use. *)
Record Collector : Type := mkCollector {
  miSession : Session;
  numberOfExceptionsThrown : option Desc;
  numberOfFilters : option Desc;
  numberOfFinally : option Desc;
  throwToCatchDepth : option Desc;
  numberOfMethodsJitted : option Desc;
  timeInJit : option Desc;
  standardJitFailures : option Desc;
  totalNumberOfILBytesJitted : option Desc
}.

Definition buildClrExceptions (c : Collector) : Collector :=
  {| miSession := miSession c;
     numberOfExceptionsThrown :=
       NewDesc (BuildFQName Namespace collectorName (collectorClrExceptions ++ "_exceptions_thrown_total"))
         "Displays the total number of exceptions thrown since the application started. This includes both .NET exceptions and unmanaged exceptions that are converted into .NET exceptions."
         ["process"];
     numberOfFilters :=
       NewDesc (BuildFQName Namespace collectorName (collectorClrExceptions ++ "_exceptions_filters_total"))
         "Displays the total number of .NET exception filters executed. An exception filter evaluates regardless of whether an exception is handled."
         ["process"];
     numberOfFinally :=
       NewDesc (BuildFQName Namespace collectorName (collectorClrExceptions ++ "_exceptions_finallys_total"))
         "Displays the total number of finally blocks executed. Only the finally blocks executed for an exception are counted; finally blocks on normal code paths are not counted by this counter."
         ["process"];
     throwToCatchDepth :=
       NewDesc (BuildFQName Namespace collectorName (collectorClrExceptions ++ "_throw_to_catch_depth_total"))
         "Displays the total number of stack frames traversed, from the frame that threw the exception to the frame that handled the exception."
         ["process"];
     numberOfMethodsJitted := numberOfMethodsJitted c;
     timeInJit := timeInJit c;
     standardJitFailures := standardJitFailures c;
     totalNumberOfILBytesJitted := totalNumberOfILBytesJitted c |}.

Definition buildClrJIT (c : Collector) : Collector :=
  {| miSession := miSession c;
     numberOfExceptionsThrown := numberOfExceptionsThrown c;
     numberOfFilters := numberOfFilters c;
     numberOfFinally := numberOfFinally c;
     throwToCatchDepth := throwToCatchDepth c;
     numberOfMethodsJitted :=
       NewDesc (BuildFQName Namespace collectorName (collectorClrJIT ++ "_jit_methods_total"))
         "Displays the total number of methods JIT-compiled since the application started. This counter does not include pre-JIT-compiled methods."
         ["process"];
     timeInJit :=
       NewDesc (BuildFQName Namespace collectorName (collectorClrJIT ++ "_jit_time_percent"))
         "Displays the percentage of time spent in JIT compilation. This counter is updated at the end of every JIT compilation phase. A JIT compilation phase occurs when a method and its dependencies are compiled."
         ["process"];
     standardJitFailures :=
       NewDesc (BuildFQName Namespace collectorName (collectorClrJIT ++ "_jit_standard_failures_total"))
         "Displays the peak number of methods the JIT compiler has failed to compile since the application started. This failure can occur if the MSIL cannot be verified or if there is an internal error in the JIT compiler."
         ["process"];
     totalNumberOfILBytesJitted :=
       NewDesc (BuildFQName Namespace collectorName (collectorClrJIT ++ "_jit_il_bytes_total"))
         "Displays the total number of Microsoft intermediate language (MSIL) bytes compiled by the just-in-time (JIT) compiler since the application started"
         ["process"] |}.

Definition send (m : Metric) : go Chan unit := modify (fun ch => (ch ++ [m])%list).

(** The body of the loop over the rows in [collectClrExceptions]. *)
Definition collectClrExceptionsRow (c : Collector)
    (process : Win32_PerfRawData_NETFramework_NETCLRExceptions) : go Chan unit :=
  if String.eqb (NETCLRExceptions.Name process) "_Global_" then ret tt else
  m <- MustNewConstMetric (numberOfExceptionsThrown c) CounterValue
         (ofZ (NumberofExcepsThrown process)) [NETCLRExceptions.Name process] ;;
  send m ;;
  m <- MustNewConstMetric (numberOfFilters c) CounterValue
         (ofZ (NumberofFiltersPersec process)) [NETCLRExceptions.Name process] ;;
  send m ;;
  m <- MustNewConstMetric (numberOfFinally c) CounterValue
         (ofZ (NumberofFinallysPersec process)) [NETCLRExceptions.Name process] ;;
  send m ;;
  m <- MustNewConstMetric (throwToCatchDepth c) CounterValue
         (ofZ (ThrowToCatchDepthPersec process)) [NETCLRExceptions.Name process] ;;
  send m.

Definition collectClrExceptions (c : Collector) : go Chan error :=
  let (dst, err) := Query_NETCLRExceptions (miSession c) in
  match err with
  | Some e => ret (Some (Errorf "WMI query failed: " e))
  | None => forRange dst (collectClrExceptionsRow c) ;; ret None
  end.

(** The body of the loop over the rows in [collectClrJIT]. *)
Definition collectClrJITRow (c : Collector)
    (process : Win32_PerfRawData_NETFramework_NETCLRJit) : go Chan unit :=
  if String.eqb (NETCLRJit.Name process) "_Global_" then ret tt else
  m <- MustNewConstMetric (numberOfMethodsJitted c) CounterValue
         (ofZ (NumberofMethodsJitted process)) [NETCLRJit.Name process] ;;
  send m ;;
  m <- MustNewConstMetric (timeInJit c) GaugeValue
         (div (ofZ (PercentTimeinJit process)) (ofZ (Frequency_PerfTime process)))
         [NETCLRJit.Name process] ;;
  send m ;;
  m <- MustNewConstMetric (standardJitFailures c) GaugeValue
         (ofZ (StandardJitFailures process)) [NETCLRJit.Name process] ;;
  send m ;;
  m <- MustNewConstMetric (totalNumberOfILBytesJitted c) CounterValue
         (ofZ (TotalNumberofILBytesJitted process)) [NETCLRJit.Name process] ;;
  send m.

Definition collectClrJIT (c : Collector) : go Chan error :=
  let (dst, err) := Query_NETCLRJit (miSession c) in
  match err with
  | Some e => ret (Some (Errorf "WMI query failed: " e))
  | None => forRange dst (collectClrJITRow c) ;; ret None
  end.

(** *** What the functions above are expected to produce *)

Definition sample (d : option Desc) (vt : ValueType) (v : float64) (lvs : list string) : list Metric :=
  match d with
  | Some d => [mkMetric d vt v lvs]
  | None => []
  end.

(** The four samples of one CLR exceptions row. *)
Definition exceptionsSamples (c : Collector)
    (process : Win32_PerfRawData_NETFramework_NETCLRExceptions) : list Metric :=
  (sample (numberOfExceptionsThrown c) CounterValue
     (ofZ (NumberofExcepsThrown process)) [NETCLRExceptions.Name process] ++
   sample (numberOfFilters c) CounterValue
     (ofZ (NumberofFiltersPersec process)) [NETCLRExceptions.Name process] ++
   sample (numberOfFinally c) CounterValue
     (ofZ (NumberofFinallysPersec process)) [NETCLRExceptions.Name process] ++
   sample (throwToCatchDepth c) CounterValue
     (ofZ (ThrowToCatchDepthPersec process)) [NETCLRExceptions.Name process])%list.

(** The quotient emitted as time in JIT. *)
Definition timeInJitValue (process : Win32_PerfRawData_NETFramework_NETCLRJit) : float64 :=
  div (ofZ (PercentTimeinJit process)) (ofZ (Frequency_PerfTime process)).

(** The four samples of one CLR JIT row. *)
Definition jitSamples (c : Collector)
    (process : Win32_PerfRawData_NETFramework_NETCLRJit) : list Metric :=
  (sample (numberOfMethodsJitted c) CounterValue
     (ofZ (NumberofMethodsJitted process)) [NETCLRJit.Name process] ++
   sample (timeInJit c) GaugeValue (timeInJitValue process) [NETCLRJit.Name process] ++
   sample (standardJitFailures c) GaugeValue
     (ofZ (StandardJitFailures process)) [NETCLRJit.Name process] ++
   sample (totalNumberOfILBytesJitted c) CounterValue
     (ofZ (TotalNumberofILBytesJitted process)) [NETCLRJit.Name process])%list.

(** Rows other than the aggregate one. *)
Definition perInstance {R} (name : R -> string) (samples : R -> list Metric) (row : R) : list Metric :=
  if String.eqb (name row) "_Global_" then [] else samples row.

(** The rows that are not the aggregate one. *)
Definition instances {R} (name : R -> string) (rows : list R) : list R :=
  filter (fun row => negb (String.eqb (name row) "_Global_")) rows.

Definition uint32Exceptions (process : Win32_PerfRawData_NETFramework_NETCLRExceptions) : Prop :=
  uint32 (NumberofExcepsThrown process) /\ uint32 (NumberofExcepsThrownPersec process) /\
  uint32 (NumberofFiltersPersec process) /\ uint32 (NumberofFinallysPersec process) /\
  uint32 (ThrowToCatchDepthPersec process).

Definition uint32Jit (process : Win32_PerfRawData_NETFramework_NETCLRJit) : Prop :=
  uint32 (Frequency_PerfTime process) /\ uint32 (ILBytesJittedPersec process) /\
  uint32 (NumberofILBytesJitted process) /\ uint32 (NumberofMethodsJitted process) /\
  uint32 (PercentTimeinJit process) /\ uint32 (StandardJitFailures process) /\
  uint32 (TotalNumberofILBytesJitted process).

End Collector.

End netframework.

(** ** pdh: a performance-counter collector for one object *)

Module pdh.

(** A [*pdh.Collector]: [Collect(&dst)] takes the slice behind [dst] and
    gives the slice it leaves there and the error it returns. *)
Record Collector (T : Type) : Type := mkCollector {
  Collect : list T -> list T * error
}.
Arguments Collect {T} c dst.
Arguments mkCollector {T} Collect.

End pdh.

(** ** package vmware *)

Module vmware.

(** The typed rows of the two counter objects, with the fields the
    collector reads (all float64). *)
Record perfDataCounterValuesCPU : Type := mkCPU {
  CPULimitMHz : float64;
  CPUReservationMHz : float64;
  CPUShares : float64;
  CPUStolenMs : float64;
  CPUTimePercents : float64;
  CPUEffectiveVMSpeedMHz : float64;
  CPUHostProcessorSpeedMHz : float64
}.

Record perfDataCounterValuesMemory : Type := mkMemory {
  MemActiveMB : float64;
  MemBalloonedMB : float64;
  MemLimitMB : float64;
  MemMappedMB : float64;
  MemOverheadMB : float64;
  MemReservationMB : float64;
  MemSharedMB : float64;
  MemSharedSavedMB : float64;
  MemShares : float64;
  MemSwappedMB : float64;
  MemTargetSizeMB : float64;
  MemUsedMB : float64
}.

Record Config : Type := mkConfig { }.

Record Collector : Type := mkCollector {
  config : Config;
  perfDataCollectorCPU : pdh.Collector perfDataCounterValuesCPU;
  perfDataCollectorMemory : pdh.Collector perfDataCounterValuesMemory;
  perfDataObjectCPU : list perfDataCounterValuesCPU;
  perfDataObjectMemory : list perfDataCounterValuesMemory;

  memActive : option Desc;
  memBallooned : option Desc;
  memLimit : option Desc;
  memMapped : option Desc;
  memOverhead : option Desc;
  memReservation : option Desc;
  memShared : option Desc;
  memSharedSaved : option Desc;
  memShares : option Desc;
  memSwapped : option Desc;
  memTargetSize : option Desc;
  memUsed : option Desc;

  cpuLimitMHz : option Desc;
  cpuReservationMHz : option Desc;
  cpuShares : option Desc;
  cpuStolenTotal : option Desc;
  cpuTimeTotal : option Desc;
  cpuEffectiveVMSpeedMHz : option Desc;
  hostProcessorSpeedMHz : option Desc
}.

Section Collector.

(** Declared in packages that are not part of these files:
    [types.Namespace]; [utils.MBToBytes] and [utils.MilliSecToSec];
    [pdh.NewCollector] with its arguments [pdh.CounterTypeRaw] and
    [pdh.InstancesTotal]. *)
Variable Namespace : string.
Variables MBToBytes MilliSecToSec : float64 -> float64.
Variable CounterType : Type.
Variable CounterTypeRaw : CounterType.
Variable InstancesTotal : list string.
Variable NewCollector :
  forall T : Type, CounterType -> string -> list string -> pdh.Collector T * error.

Definition collectorName : string := "vmware".

Definition desc0 (name help : string) : option Desc :=
  NewDesc (BuildFQName Namespace collectorName name) help [].

Definition Build (c : Collector) : Collector * error :=
  let errs : list error := [] in
  let (cpu, err) := NewCollector perfDataCounterValuesCPU CounterTypeRaw "VM Processor" InstancesTotal in
  let errs :=
    match err with
    | Some e => (errs ++ [Some (Errorf "failed to create VM Processor collector: " e)])%list
    | None => errs
    end in
  let (mem, err) := NewCollector perfDataCounterValuesMemory CounterTypeRaw "VM Memory" [] in
  let errs :=
    match err with
    | Some e => (errs ++ [Some (Errorf "failed to create VM Memory collector: " e)])%list
    | None => errs
    end in
  ({| config := config c;
      perfDataCollectorCPU := cpu;
      perfDataCollectorMemory := mem;
      perfDataObjectCPU := perfDataObjectCPU c;
      perfDataObjectMemory := perfDataObjectMemory c;
      cpuLimitMHz := desc0 "cpu_limit_mhz" "The maximum processing power in MHz allowed to the virtual machine. Assigning a CPU Limit ensures that this virtual machine never consumes more than a certain amount of the available processor power. By limiting the amount of processing power consumed, a portion of the processing power becomes available to other virtual machines.";
      cpuReservationMHz := desc0 "cpu_reservation_mhz" "The minimum processing power in MHz available to the virtual machine. Assigning a CPU Reservation ensures that even as other virtual machines on the same host consume shared processing power, there is still a certain minimum amount for this virtual machine.";
      cpuShares := desc0 "cpu_shares" "The number of CPU shares allocated to the virtual machine.";
      cpuStolenTotal := desc0 "cpu_stolen_seconds_total" "The time that the VM was runnable but not scheduled to run.";
      cpuTimeTotal := desc0 "cpu_time_seconds_total" "Current load of the VM’s virtual processor";
      cpuEffectiveVMSpeedMHz := desc0 "cpu_effective_vm_speed_mhz_total" "The effective speed of the VM’s virtual CPU";
      hostProcessorSpeedMHz := desc0 "host_processor_speed_mhz" "Host Processor speed";
      memActive := desc0 "mem_active_bytes" "The estimated amount of memory the virtual machine is actively using.";
      memBallooned := desc0 "mem_ballooned_bytes" "The amount of memory that has been reclaimed from this virtual machine via the VMware Memory Balloon mechanism.";
      memLimit := desc0 "mem_limit_bytes" "The maximum amount of memory that is allowed to the virtual machine. Assigning a Memory Limit ensures that this virtual machine never consumes more than a certain amount of the allowed memory. By limiting the amount of memory consumed, a portion of this shared resource is allowed to other virtual machines.";
      memMapped := desc0 "mem_mapped_bytes" "The mapped memory size of this virtual machine. This is the current total amount of guest memory that is backed by physical memory. Note that this number may include pages of memory shared between multiple virtual machines and thus may be an overestimate of the amount of physical host memory consumed by this virtual machine.";
      memOverhead := desc0 "mem_overhead_bytes" "The amount of overhead memory associated with this virtual machine consumed on the host system.";
      memReservation := desc0 "mem_reservation_bytes" "The minimum amount of memory that is guaranteed to the virtual machine. Assigning a Memory Reservation ensures that even as other virtual machines on the same host consume memory, there is still a certain minimum amount for this virtual machine.";
      memShared := desc0 "mem_shared_bytes" "The amount of physical memory associated with this virtual machine that is copy-on-write (COW) shared on the host.";
      memSharedSaved := desc0 "mem_shared_saved_bytes" "The estimated amount of physical memory on the host saved from copy-on-write (COW) shared guest physical memory.";
      memShares := desc0 "mem_shares" "The number of memory shares allocated to the virtual machine.";
      memSwapped := desc0 "mem_swapped_bytes" "The amount of memory associated with this virtual machine that has been swapped by ESX.";
      memTargetSize := desc0 "mem_target_size_bytes" "Memory Target Size.";
      memUsed := desc0 "mem_used_bytes" "The estimated amount of physical host memory currently consumed for this virtual machine's physical memory." |},
   Join errs).

(** [Collect] works on the collector (the two [perfDataObject] slices are
    overwritten by the queries) and on the metric channel. *)
Record World : Type := mkWorld {
  self : Collector;
  ch : Chan
}.

Definition send (m : Metric) : go World unit :=
  modify (fun w => {| self := self w; ch := (ch w ++ [m])%list |}).

Definition setMemory (dst : list perfDataCounterValuesMemory) (c : Collector) : Collector :=
  {| config := config c;
     perfDataCollectorCPU := perfDataCollectorCPU c;
     perfDataCollectorMemory := perfDataCollectorMemory c;
     perfDataObjectCPU := perfDataObjectCPU c;
     perfDataObjectMemory := dst;
     memActive := memActive c; memBallooned := memBallooned c; memLimit := memLimit c;
     memMapped := memMapped c; memOverhead := memOverhead c;
     memReservation := memReservation c; memShared := memShared c;
     memSharedSaved := memSharedSaved c; memShares := memShares c;
     memSwapped := memSwapped c; memTargetSize := memTargetSize c; memUsed := memUsed c;
     cpuLimitMHz := cpuLimitMHz c; cpuReservationMHz := cpuReservationMHz c;
     cpuShares := cpuShares c; cpuStolenTotal := cpuStolenTotal c;
     cpuTimeTotal := cpuTimeTotal c; cpuEffectiveVMSpeedMHz := cpuEffectiveVMSpeedMHz c;
     hostProcessorSpeedMHz := hostProcessorSpeedMHz c |}.

Definition setCPU (dst : list perfDataCounterValuesCPU) (c : Collector) : Collector :=
  {| config := config c;
     perfDataCollectorCPU := perfDataCollectorCPU c;
     perfDataCollectorMemory := perfDataCollectorMemory c;
     perfDataObjectCPU := dst;
     perfDataObjectMemory := perfDataObjectMemory c;
     memActive := memActive c; memBallooned := memBallooned c; memLimit := memLimit c;
     memMapped := memMapped c; memOverhead := memOverhead c;
     memReservation := memReservation c; memShared := memShared c;
     memSharedSaved := memSharedSaved c; memShares := memShares c;
     memSwapped := memSwapped c; memTargetSize := memTargetSize c; memUsed := memUsed c;
     cpuLimitMHz := cpuLimitMHz c; cpuReservationMHz := cpuReservationMHz c;
     cpuShares := cpuShares c; cpuStolenTotal := cpuStolenTotal c;
     cpuTimeTotal := cpuTimeTotal c; cpuEffectiveVMSpeedMHz := cpuEffectiveVMSpeedMHz c;
     hostProcessorSpeedMHz := hostProcessorSpeedMHz c |}.

(** [c.perfDataCollectorMemory.Collect(&c.perfDataObjectMemory)] *)
Definition queryMemory : go World error :=
  w <- get ;;
  let (dst, err) := pdh.Collect (perfDataCollectorMemory (self w)) (perfDataObjectMemory (self w)) in
  modify (fun w => {| self := setMemory dst (self w); ch := ch w |}) ;;
  ret err.

(** [c.perfDataCollectorCPU.Collect(&c.perfDataObjectCPU)] *)
Definition queryCPU : go World error :=
  w <- get ;;
  let (dst, err) := pdh.Collect (perfDataCollectorCPU (self w)) (perfDataObjectCPU (self w)) in
  modify (fun w => {| self := setCPU dst (self w); ch := ch w |}) ;;
  ret err.

(** [c.perfDataObjectMemory[0]] and [c.perfDataObjectCPU[0]] *)
Definition memory0 : go World perfDataCounterValuesMemory :=
  w <- get ;; index (perfDataObjectMemory (self w)) 0.

Definition cpu0 : go World perfDataCounterValuesCPU :=
  w <- get ;; index (perfDataObjectCPU (self w)) 0.

(** One [ch <- prometheus.MustNewConstMetric(d, vt, v)]; the value is
    evaluated first. *)
Definition emit {R} (d : Collector -> option Desc) (vt : ValueType)
    (row0 : go World R) (v : R -> float64) : go World unit :=
  w <- get ;;
  r <- row0 ;;
  m <- MustNewConstMetric (d (self w)) vt (v r) [] ;;
  send m.

Definition collectMem : go World error :=
  err <- queryMemory ;;
  match err with
  | Some e => ret (Some (Errorf "failed to collect VM Memory metrics: " e))
  | None =>
      emit memActive GaugeValue memory0 (fun r => MBToBytes (MemActiveMB r)) ;;
      emit memBallooned GaugeValue memory0 (fun r => MBToBytes (MemBalloonedMB r)) ;;
      emit memLimit GaugeValue memory0 (fun r => MBToBytes (MemLimitMB r)) ;;
      emit memMapped GaugeValue memory0 (fun r => MBToBytes (MemMappedMB r)) ;;
      emit memOverhead GaugeValue memory0 (fun r => MBToBytes (MemOverheadMB r)) ;;
      emit memReservation GaugeValue memory0 (fun r => MBToBytes (MemReservationMB r)) ;;
      emit memShared GaugeValue memory0 (fun r => MBToBytes (MemSharedMB r)) ;;
      emit memSharedSaved GaugeValue memory0 (fun r => MBToBytes (MemSharedSavedMB r)) ;;
      emit memShares GaugeValue memory0 (fun r => MemShares r) ;;
      emit memSwapped GaugeValue memory0 (fun r => MBToBytes (MemSwappedMB r)) ;;
      emit memTargetSize GaugeValue memory0 (fun r => MBToBytes (MemTargetSizeMB r)) ;;
      emit memUsed GaugeValue memory0 (fun r => MBToBytes (MemUsedMB r)) ;;
      ret None
  end.

Definition collectCpu : go World error :=
  err <- queryCPU ;;
  match err with
  | Some e => ret (Some (Errorf "failed to collect VM CPU metrics: " e))
  | None =>
      emit cpuLimitMHz GaugeValue cpu0 (fun r => CPULimitMHz r) ;;
      emit cpuReservationMHz GaugeValue cpu0 (fun r => CPUReservationMHz r) ;;
      emit cpuShares GaugeValue cpu0 (fun r => CPUShares r) ;;
      emit cpuStolenTotal CounterValue cpu0 (fun r => MilliSecToSec (CPUStolenMs r)) ;;
      emit cpuTimeTotal CounterValue cpu0 (fun r => MilliSecToSec (CPUTimePercents r)) ;;
      emit cpuEffectiveVMSpeedMHz GaugeValue cpu0 (fun r => CPUEffectiveVMSpeedMHz r) ;;
      emit hostProcessorSpeedMHz GaugeValue cpu0 (fun r => CPUHostProcessorSpeedMHz r) ;;
      ret None
  end.

Definition Collect : go World error :=
  let errs : list error := [] in
  err <- collectCpu ;;
  let errs :=
    match err with
    | Some e => (errs ++ [Some (Errorf "failed collecting vmware cpu metrics: " e)])%list
    | None => errs
    end in
  err <- collectMem ;;
  let errs :=
    match err with
    | Some e => (errs ++ [Some (Errorf "failed collecting vmware memory metrics: " e)])%list
    | None => errs
    end in
  ret (Join errs).

(** *** What the functions above are expected to produce *)

Definition emitAll (ms : list Metric) (w : World) : World :=
  {| self := self w; ch := (ch w ++ ms)%list |}.

Definition sample (d : option Desc) (vt : ValueType) (v : float64) : list Metric :=
  match d with
  | Some d => [mkMetric d vt v []]
  | None => []
  end.

(** The twelve memory samples read from a row. *)
Definition memSamples (c : Collector) (r : perfDataCounterValuesMemory) : list Metric :=
  (sample (memActive c) GaugeValue (MBToBytes (MemActiveMB r)) ++
   sample (memBallooned c) GaugeValue (MBToBytes (MemBalloonedMB r)) ++
   sample (memLimit c) GaugeValue (MBToBytes (MemLimitMB r)) ++
   sample (memMapped c) GaugeValue (MBToBytes (MemMappedMB r)) ++
   sample (memOverhead c) GaugeValue (MBToBytes (MemOverheadMB r)) ++
   sample (memReservation c) GaugeValue (MBToBytes (MemReservationMB r)) ++
   sample (memShared c) GaugeValue (MBToBytes (MemSharedMB r)) ++
   sample (memSharedSaved c) GaugeValue (MBToBytes (MemSharedSavedMB r)) ++
   sample (memShares c) GaugeValue (MemShares r) ++
   sample (memSwapped c) GaugeValue (MBToBytes (MemSwappedMB r)) ++
   sample (memTargetSize c) GaugeValue (MBToBytes (MemTargetSizeMB r)) ++
   sample (memUsed c) GaugeValue (MBToBytes (MemUsedMB r)))%list.

(** The seven CPU samples read from a row. *)
Definition cpuSamples (c : Collector) (r : perfDataCounterValuesCPU) : list Metric :=
  (sample (cpuLimitMHz c) GaugeValue (CPULimitMHz r) ++
   sample (cpuReservationMHz c) GaugeValue (CPUReservationMHz r) ++
   sample (cpuShares c) GaugeValue (CPUShares r) ++
   sample (cpuStolenTotal c) CounterValue (MilliSecToSec (CPUStolenMs r)) ++
   sample (cpuTimeTotal c) CounterValue (MilliSecToSec (CPUTimePercents r)) ++
   sample (cpuEffectiveVMSpeedMHz c) GaugeValue (CPUEffectiveVMSpeedMHz r) ++
   sample (hostProcessorSpeedMHz c) GaugeValue (CPUHostProcessorSpeedMHz r))%list.

(** The world once a query has left [dst] in the collector. *)
Definition afterMemory (dst : list perfDataCounterValuesMemory) (w : World) : World :=
  {| self := setMemory dst (self w); ch := ch w |}.

Definition afterCPU (dst : list perfDataCounterValuesCPU) (w : World) : World :=
  {| self := setCPU dst (self w); ch := ch w |}.

Definition noLabels (d : option Desc) : bool :=
  match d with
  | Some d => Nat.eqb (List.length (variableLabels d)) 0
  | None => false
  end.

(** The descriptors are set and take no label, as [Build] leaves them. *)
Definition hasDescs (c : Collector) : bool :=
  noLabels (memActive c) && noLabels (memBallooned c) && noLabels (memLimit c) &&
  noLabels (memMapped c) && noLabels (memOverhead c) && noLabels (memReservation c) &&
  noLabels (memShared c) && noLabels (memSharedSaved c) && noLabels (memShares c) &&
  noLabels (memSwapped c) && noLabels (memTargetSize c) && noLabels (memUsed c) &&
  noLabels (cpuLimitMHz c) && noLabels (cpuReservationMHz c) && noLabels (cpuShares c) &&
  noLabels (cpuStolenTotal c) && noLabels (cpuTimeTotal c) &&
  noLabels (cpuEffectiveVMSpeedMHz c) && noLabels (hostProcessorSpeedMHz c).

End Collector.

End vmware.

(** ** Concrete inputs used below *)

Module examples.

Import netframework.

Definition noDescs : netframework.Collector :=
  {| miSession := {| Query_NETCLRExceptions := ([], None); Query_NETCLRJit := ([], None) |};
     numberOfExceptionsThrown := None; numberOfFilters := None; numberOfFinally := None;
     throwToCatchDepth := None; numberOfMethodsJitted := None; timeInJit := None;
     standardJitFailures := None; totalNumberOfILBytesJitted := None |}.

Definition exceptionsRow (name : string) : NETCLRExceptions.Win32_PerfRawData_NETFramework_NETCLRExceptions :=
  NETCLRExceptions.mkRow name 7 1 2 3 4294967295.

Definition jitRow (name : string) (percentTimeinJit frequency : Z)
  : NETCLRJit.Win32_PerfRawData_NETFramework_NETCLRJit :=
  NETCLRJit.mkRow name frequency 0 0 12 percentTimeinJit 0 4096.

(** A session answering both queries with the aggregate row and one
    process row. *)
Definition clrCollector : netframework.Collector :=
  {| miSession :=
       {| Query_NETCLRExceptions := ([exceptionsRow "_Global_"; exceptionsRow "w3wp"], None);
          Query_NETCLRJit := ([jitRow "_Global_" 50 100; jitRow "w3wp" 50 100], None) |};
     numberOfExceptionsThrown := None; numberOfFilters := None; numberOfFinally := None;
     throwToCatchDepth := None; numberOfMethodsJitted := None; timeInJit := None;
     standardJitFailures := None; totalNumberOfILBytesJitted := None |}.

(** A registered task as an automation object. *)
Definition taskObject (name path : string) (state missedRuns lastResult : Z) : TaskObject :=
  mkTaskObject (fun property =>
    if String.eqb property "Name" then inl (mkVARIANT 0 name None None)
    else if String.eqb property "Path" then inl (mkVARIANT 0 path None None)
    else if String.eqb property "Enabled" then inl (mkVARIANT 65535 "" (Some true) None)
    else if String.eqb property "State" then inl (mkVARIANT state "" None None)
    else if String.eqb property "NumberOfMissedRuns" then inl (mkVARIANT missedRuns "" None None)
    else if String.eqb property "LastTaskResult" then inl (mkVARIANT lastResult "" None None)
    else inr (errorString "unknown name")).

(** A root folder with one task and two sub-folders, one of them holding a
    folder of its own: siblings at two depths. *)
Definition taskTree : Folder :=
  mkFolder "\"
    (inl [taskObject "backup" "\backup" 4 0 0])
    (inl [mkFolder "\Microsoft"
            (inl [taskObject "scan" "\Microsoft\scan" 3 2 267011])
            (inl [mkFolder "\Microsoft\Windows"
                    (inl [taskObject "defrag" "\Microsoft\Windows\defrag" 1 0 1])
                    (inl [])]);
          mkFolder "\Vendor" (inl []) (inl [])]).

Definition taskHost : Host :=
  {| CoInitializeEx := None; ClassIDFrom := None; CreateInstance := (true, None);
     QueryInterface := None; Connect := None; GetFolder := inl taskTree |}.

(** Three patterns, on text without line breaks: the empty text only,
    any non-empty text, and any text that starts with [/Microsoft/]. *)
Definition reEmpty : Regexp := mkRegexp (fun s => String.eqb s "").
Definition reAny : Regexp := mkRegexp (fun s => negb (String.eqb s "")).
Definition reMicrosoft : Regexp := mkRegexp (fun s => String.prefix "/Microsoft/" s).

Definition emptyWorld : scheduled_task.World :=
  {| scheduled_task.ch := []; scheduled_task.scheduledTasks := []; scheduled_task.calls := [] |}.

Definition runningTask : scheduled_task.ScheduledTask :=
  {| scheduled_task.Name := "backup"; scheduled_task.Path := "/backup";
     scheduled_task.Enabled := true; scheduled_task.State := 4;
     scheduled_task.MissedRunsCount := zero; scheduled_task.LastTaskResult := 267011 |}.

(** A host on which neither counter object exists. *)
Definition noCounters (T : Type) (_ : unit) (object : string) (_ : list string)
  : pdh.Collector T * error :=
  (pdh.mkCollector (fun dst => (dst, Some (errorString "collector not initialized"))),
   Some (errorString ("counter object not found: " ++ object))).


Definition cpuRow : vmware.perfDataCounterValuesCPU :=
  vmware.mkCPU (ofZ 2000) zero (ofZ 1000) (ofZ 5) (ofZ 7) (ofZ 1990) (ofZ 2400).

Definition memRow : vmware.perfDataCounterValuesMemory :=
  vmware.mkMemory (ofZ 512) zero (ofZ 4096) (ofZ 4096) (ofZ 40) zero zero zero
    (ofZ 1000) zero (ofZ 4096) (ofZ 2048).

(** A built vmware collector with the given CPU and memory queries. *)
Definition vmCollector (cpu : pdh.Collector vmware.perfDataCounterValuesCPU)
    (mem : pdh.Collector vmware.perfDataCounterValuesMemory) : vmware.Collector :=
  let d := Some (mkDesc "windows_vmware_x" "x" []) in
  vmware.mkCollector vmware.mkConfig cpu mem [] []
    d d d d d d d d d d d d d d d d d d d.

Definition vmWorld cpu mem : vmware.World :=
  {| vmware.self := vmCollector cpu mem; vmware.ch := [] |}.

Definition failing {T} (text : string) : pdh.Collector T :=
  pdh.mkCollector (fun dst => (dst, Some (errorString text))).

Definition answering {T} (rows : list T) : pdh.Collector T :=
  pdh.mkCollector (fun _ => (rows, None)).

(** Stand-ins for [utils.MBToBytes] and [utils.MilliSecToSec]. *)
Definition mbToBytes (x : float64) : float64 := SFmul prec emax x (ofZ 1048576).
Definition milliSecToSec (x : float64) : float64 := div x (ofZ 1000).

(** Hosts on which opening the Task Scheduler goes wrong. *)
Definition refusedHost : Host :=
  mkHost (Some (oleError 5 "access is denied")) None (true, None) None None (inl taskTree).

Definition noSchedulerHost : Host :=
  mkHost None None (false, None) None None (inl taskTree).

Definition noRootHost : Host :=
  mkHost None None (true, None) None None (inr (errorString "folder not found")).

(** A task none of whose properties can be read. *)
Definition goneTask : TaskObject := mkTaskObject (fun _ => inr (errorString "task is gone")).

(** A session on which both queries fail, leaving a row behind. *)
Definition failingSession : netframework.Collector :=
  {| miSession :=
       {| Query_NETCLRExceptions := ([exceptionsRow "w3wp"], Some (errorString "access denied"));
          Query_NETCLRJit := ([jitRow "w3wp" 50 100], Some (errorString "invalid class")) |};
     numberOfExceptionsThrown := None; numberOfFilters := None; numberOfFinally := None;
     throwToCatchDepth := None; numberOfMethodsJitted := None; timeInJit := None;
     standardJitFailures := None; totalNumberOfILBytesJitted := None |}.

(** A vmware collector before [Build], whose slices hold a row each. *)
Definition vmSeeded : vmware.Collector :=
  vmware.mkCollector vmware.mkConfig (failing "") (failing "") [cpuRow] [memRow]
    None None None None None None None None None None None None None None None None None
    None None.

End examples.

(** * Properties *)

(** ** Loops that only send samples *)

Section Loops.

Context {St A : Type}.
Variable add : list Metric -> St -> St.
Hypothesis add_nil : forall s, add [] s = s.
Hypothesis add_app : forall a b s, add b (add a s) = add (a ++ b)%list s.

(** A range loop whose body sends the samples [f x] for the element [x]
    sends the samples of all elements, in order. *)
Lemma forRange_flat_map (f : A -> list Metric) (body : A -> go St unit) :
  (forall x s, body x s = Returns tt (add (f x) s)) ->
  forall l s, forRange l body s = Returns tt (add (flat_map f l) s).
Proof.
  intros Hbody l. induction l as [|x l IH]; intros s; cbn [forRange flat_map].
  - unfold ret. now rewrite add_nil.
  - unfold bind. rewrite Hbody, IH, add_app. reflexivity.
Qed.

End Loops.

(** ** Errors *)

Lemma Error_eqb_refl : forall e, Error_eqb e e = true.
Proof.
  fix IH 1. intros [text | hr description | msg err | errs]; cbn [Error_eqb].
  - apply String.eqb_refl.
  - now rewrite Z.eqb_refl, String.eqb_refl.
  - now rewrite String.eqb_refl, IH.
  - induction errs as [|x r IHr]; [reflexivity|]. now rewrite IH, IHr.
Qed.

Lemma Is_refl e : Is e e = true.
Proof. destruct e; cbn [Is]; now rewrite Error_eqb_refl. Qed.

(** An error wrapped with [%w] still is the error it wraps, and whatever
    that one is. *)
Lemma Is_Errorf prefix e target : Is e target = true -> Is (Errorf prefix e) target = true.
Proof. intros H. unfold Errorf. cbn [Is]. rewrite H. apply orb_true_r. Qed.

Lemma Is_joinError errs e target :
  In e errs -> Is e target = true -> Is (joinError errs) target = true.
Proof.
  intros Hin H. cbn [Is]. apply orb_true_iff. right.
  induction errs as [|x r IH]; [contradiction|].
  destruct Hin as [->|Hin].
  - now rewrite H.
  - rewrite (IH Hin). apply orb_true_r.
Qed.

(** ** float64: conversions of integers and quotients

    Facts about the binary64 operations of [SpecFloat] on the values the
    collectors compute with: integers below [2^53] and their quotients. *)

Lemma digits2_pos_bounds (p : positive) :
  2 ^ (Z.pos (digits2_pos p) - 1) <= Z.pos p < 2 ^ Z.pos (digits2_pos p).
Proof.
  induction p as [p IH | p IH |]; cbn [digits2_pos].
  - rewrite Pos2Z.inj_succ.
    replace (Z.succ (Z.pos (digits2_pos p)) - 1) with (Z.succ (Z.pos (digits2_pos p) - 1)) by lia.
    rewrite !Z.pow_succ_r by lia. lia.
  - rewrite Pos2Z.inj_succ.
    replace (Z.succ (Z.pos (digits2_pos p)) - 1) with (Z.succ (Z.pos (digits2_pos p) - 1)) by lia.
    rewrite !Z.pow_succ_r by lia. lia.
  - cbn. lia.
Qed.

Lemma digits2_pos_unique (p : positive) (d : Z) :
  2 ^ (d - 1) <= Z.pos p < 2 ^ d -> Z.pos (digits2_pos p) = d.
Proof.
  intros [Hlo Hhi].
  pose proof (digits2_pos_bounds p) as [Blo Bhi].
  assert (0 < d).
  { destruct (Z_lt_le_dec 0 d) as [|Hd]; [assumption|].
    destruct (Z.eq_dec d 0) as [->|]; [cbn in Hhi; lia|].
    rewrite Z.pow_neg_r in Hhi by lia. lia. }
  destruct (Z_lt_le_dec (Z.pos (digits2_pos p)) d) as [Hlt|Hge].
  - assert (2 ^ Z.pos (digits2_pos p) <= 2 ^ (d - 1)) by (apply Z.pow_le_mono_r; lia). lia.
  - destruct (Z.eq_dec (Z.pos (digits2_pos p)) d) as [|Hne]; [assumption|].
    assert (2 ^ d <= 2 ^ (Z.pos (digits2_pos p) - 1)) by (apply Z.pow_le_mono_r; lia). lia.
Qed.

Lemma iter_xO_pow2 (m k : positive) : Z.pos (Pos.iter xO m k) = Z.pos m * 2 ^ Z.pos k.
Proof.
  rewrite <- Z.shiftl_mul_pow2 by lia. cbn [Z.shiftl].
  apply (Pos.iter_swap_gen _ _ Z.pos xO (Z.mul 2)). reflexivity.
Qed.

Lemma loc_of_shr_record_of_loc m l : loc_of_shr_record (shr_record_of_loc m l) = l.
Proof. destruct l as [|[]]; reflexivity. Qed.

Lemma shr_m_of_loc m l : shr_m (shr_record_of_loc m l) = m.
Proof. destruct l as [|[]]; reflexivity. Qed.

Lemma shr_m_shr_1 mrs : 0 <= shr_m mrs -> shr_m (shr_1 mrs) = shr_m mrs / 2.
Proof.
  destruct mrs as [m r s]; cbn [shr_m]. intros Hm.
  destruct m as [|[p|p|]|p]; cbn [shr_1 shr_m]; try lia; try reflexivity.
  - rewrite Pos2Z.inj_xI. apply Z.div_unique with (r := 1); lia.
  - rewrite Pos2Z.inj_xO. apply Z.div_unique with (r := 0); lia.
Qed.

Lemma round_nearest_even_bounds m l : m <= round_nearest_even m l <= m + 1.
Proof.
  destruct l as [|[]]; cbn [round_nearest_even]; try lia.
  destruct (Z.even m); lia.
Qed.

Lemma fexp_eq e : -1021 <= e -> fexp prec emax e = e - 53.
Proof. unfold fexp, emin, prec, emax. lia. Qed.

(** No shift for a 53-digit mantissa, one for a 54-digit one. *)
Lemma shr_fexp_53 m e l :
  2 ^ 52 <= m < 2 ^ 53 -> -1074 <= e ->
  shr_fexp prec emax m e l = (shr_record_of_loc m l, e).
Proof.
  intros Hm He. unfold shr_fexp.
  destruct m as [|p|p]; try lia.
  cbn [Zdigits2]. rewrite (digits2_pos_unique p 53) by (cbn; lia).
  rewrite fexp_eq by lia.
  replace (53 + e - 53 - e) with 0 by lia. reflexivity.
Qed.

Lemma shr_fexp_54 m e l :
  2 ^ 53 <= m < 2 ^ 54 -> -1075 <= e ->
  shr_fexp prec emax m e l = (shr_1 (shr_record_of_loc m l), e + 1).
Proof.
  intros Hm He. unfold shr_fexp.
  destruct m as [|p|p]; try lia.
  cbn [Zdigits2]. rewrite (digits2_pos_unique p 54) by (cbn; lia).
  rewrite fexp_eq by lia.
  replace (54 + e - 53 - e) with 1 by lia. reflexivity.
Qed.

(** The second normalisation of [binary_round_aux]: after rounding, the
    mantissa has 53 digits or is exactly [2^53]. *)
Lemma shr_fexp_rounded m e :
  2 ^ 52 <= m <= 2 ^ 53 -> -1074 <= e ->
  exists mrs e'', shr_fexp prec emax m e loc_Exact = (mrs, e'') /\
    2 ^ 52 <= shr_m mrs < 2 ^ 53 /\
    ((e'' = e /\ shr_m mrs = m) \/ (e'' = e + 1 /\ shr_m mrs = 2 ^ 52)).
Proof.
  intros Hm He.
  destruct (Z.eq_dec m (2 ^ 53)) as [->|Hne].
  - rewrite shr_fexp_54 by lia. eexists _, _. split; [reflexivity|].
    cbn. lia.
  - rewrite shr_fexp_53 by lia. eexists _, _. split; [reflexivity|].
    cbn [shr_record_of_loc shr_m]. lia.
Qed.

(** Shape of a rounded quotient: for a 53- or 54-digit [q], rounding gives
    a normal number whose exponent grew by [carry q], or by one more with
    mantissa [2^52]. *)
Lemma binary_round_aux_shape sx q e l :
  2 ^ 52 <= q < 2 ^ 54 -> -1074 <= e <= 960 ->
  exists m'' e'', binary_round_aux prec emax sx q e l = S754_finite sx m'' e'' /\
    2 ^ 52 <= Z.pos m'' < 2 ^ 53 /\
    (e'' = e + carry q \/ (e'' = e + carry q + 1 /\ Z.pos m'' = 2 ^ 52)).
Proof.
  intros Hq He. unfold binary_round_aux, carry.
  destruct (Z.ltb_spec q (2 ^ 53)) as [Hlt|Hge].
  - rewrite shr_fexp_53 by lia.
    rewrite loc_of_shr_record_of_loc, shr_m_of_loc.
    pose proof (round_nearest_even_bounds q l) as Hr.
    destruct (shr_fexp_rounded (round_nearest_even q l) e) as (mrs & e'' & -> & Hb & Hc); [lia|lia|].
    destruct (shr_m mrs) as [|p|p] eqn:Em; try lia.
    replace (e'' <=? emax - prec) with true by (symmetry; apply Z.leb_le; unfold emax, prec; lia).
    exists p, e''. split; [reflexivity|]. split; [lia|]. lia.
  - rewrite shr_fexp_54 by lia.
    set (mrs1 := shr_1 (shr_record_of_loc q l)).
    assert (H1 : shr_m mrs1 = q / 2).
    { unfold mrs1. rewrite shr_m_shr_1; rewrite shr_m_of_loc; lia. }
    assert (2 ^ 52 <= q / 2 < 2 ^ 53).
    { split; [apply Z.div_le_lower_bound; lia | apply Z.div_lt_upper_bound; lia]. }
    pose proof (round_nearest_even_bounds (shr_m mrs1) (loc_of_shr_record mrs1)) as Hr.
    destruct (shr_fexp_rounded (round_nearest_even (shr_m mrs1) (loc_of_shr_record mrs1)) (e + 1))
      as (mrs & e'' & -> & Hb & Hc); [lia|lia|].
    destruct (shr_m mrs) as [|p|p] eqn:Em; try lia.
    replace (e'' <=? emax - prec) with true by (symmetry; apply Z.leb_le; unfold emax, prec; lia).
    exists p, e''. split; [reflexivity|]. split; [lia|]. lia.
Qed.

Lemma binary_round_aux_exact sx m e :
  2 ^ 52 <= Z.pos m < 2 ^ 53 -> -1074 <= e <= 971 ->
  binary_round_aux prec emax sx (Z.pos m) e loc_Exact = S754_finite sx m e.
Proof.
  intros Hm He. unfold binary_round_aux.
  rewrite shr_fexp_53 by lia. cbn [shr_record_of_loc shr_m loc_of_shr_record round_nearest_even].
  rewrite shr_fexp_53 by lia. cbn [shr_record_of_loc shr_m].
  replace (e <=? emax - prec) with true by (symmetry; apply Z.leb_le; unfold emax, prec; lia).
  reflexivity.
Qed.

(** [float64(v)] for a positive integer below [2^53]: the mantissa is [v]
    shifted to 53 digits, nothing is rounded away. *)
Lemma ofZ_pos (p : positive) :
  Z.pos p < 2 ^ 53 ->
  exists m, ofZ (Z.pos p) = S754_finite false m (Z.pos (digits2_pos p) - 53) /\
            Z.pos m = Z.pos p * 2 ^ (53 - Z.pos (digits2_pos p)) /\
            2 ^ 52 <= Z.pos m < 2 ^ 53.
Proof.
  intros Hp.
  pose proof (digits2_pos_bounds p) as [Blo Bhi].
  set (d := Z.pos (digits2_pos p)) in *.
  assert (Hd : 1 <= d <= 53).
  { split; [unfold d; lia|].
    destruct (Z_lt_le_dec 53 d); [|assumption].
    assert (2 ^ 53 <= 2 ^ (d - 1)) by (apply Z.pow_le_mono_r; lia). lia. }
  unfold ofZ, binary_normalize, binary_round, shl_align. fold d.
  rewrite fexp_eq by lia.
  destruct (d + 0 - 53 - 0) as [|k|k] eqn:Ek; try lia.
  - assert (d = 53) by lia.
    exists p. replace (53 - d) with 0 by lia. replace (d - 53) with 0 by lia.
    rewrite Z.mul_1_r.
    assert (2 ^ 52 <= Z.pos p < 2 ^ 53) by (replace 52 with (d - 1) by lia; lia).
    rewrite binary_round_aux_exact by lia. auto.
  - assert (Hk : Z.pos k = 53 - d) by lia.
    exists (Pos.iter xO p k).
    pose proof (iter_xO_pow2 p k) as Hi. rewrite Hk in Hi.
    assert (Hpow : 2 ^ (d - 1) * 2 ^ (53 - d) = 2 ^ 52).
    { rewrite <- Z.pow_add_r by lia. f_equal. lia. }
    assert (Hpow' : 2 ^ d * 2 ^ (53 - d) = 2 ^ 53).
    { rewrite <- Z.pow_add_r by lia. f_equal. lia. }
    assert (0 < 2 ^ (53 - d)) by (apply Z.pow_pos_nonneg; lia).
    assert (Hm : 2 ^ 52 <= Z.pos (Pos.iter xO p k) < 2 ^ 53) by (rewrite Hi; nia).
    replace (d + 0 - 53) with (d - 53) by lia.
    rewrite binary_round_aux_exact by lia. auto.
Qed.

Lemma toZ_ofZ (v : Z) : 0 <= v < 2 ^ 53 -> toZ (ofZ v) = Some v.
Proof.
  intros Hv. destruct v as [|p|p]; try lia; [reflexivity|].
  destruct (ofZ_pos p) as (m & -> & Hm & Hb); [lia|].
  pose proof (digits2_pos_bounds p) as [Blo Bhi].
  set (d := Z.pos (digits2_pos p)) in *.
  assert (Hd : d <= 53).
  { destruct (Z_lt_le_dec 53 d); [|lia].
    assert (2 ^ 53 <= 2 ^ (d - 1)) by (apply Z.pow_le_mono_r; lia). lia. }
  cbn [toZ]. rewrite Hm.
  destruct (Z.leb_spec 0 (d - 53)).
  - replace (d - 53) with 0 by lia. replace (53 - d) with 0 by lia.
    rewrite !Z.mul_1_r. reflexivity.
  - replace (- (d - 53)) with (53 - d) by lia.
    assert (0 < 2 ^ (53 - d)) by (apply Z.pow_pos_nonneg; lia).
    rewrite Z.mod_mul by lia. rewrite Z.div_mul by lia. reflexivity.
Qed.

Lemma new_location_0 n : new_location n 0 = loc_Exact.
Proof. unfold new_location. destruct (Z.even n); reflexivity. Qed.

(** The quotient of two positive integers below [2^53]: a normal number;
    when the numerator is not above the denominator it is at most one. *)
Lemma div_ofZ_pos (p f : positive) :
  Z.pos p < 2 ^ 53 -> Z.pos f < 2 ^ 53 ->
  exists m e, div (ofZ (Z.pos p)) (ofZ (Z.pos f)) = S754_finite false m e /\
    2 ^ 52 <= Z.pos m < 2 ^ 53 /\
    ((p <= f)%positive -> e < -52 \/ (e = -52 /\ Z.pos m = 2 ^ 52)).
Proof.
  intros Hp Hf.
  destruct (ofZ_pos p Hp) as (mp & -> & Hmp & Bmp).
  destruct (ofZ_pos f Hf) as (mf & -> & Hmf & Bmf).
  pose proof (digits2_pos_bounds p) as [Plo Phi].
  pose proof (digits2_pos_bounds f) as [Flo Fhi].
  set (dp := Z.pos (digits2_pos p)) in *.
  set (df := Z.pos (digits2_pos f)) in *.
  assert (Hdp : 1 <= dp <= 53).
  { split; [unfold dp; lia|]. destruct (Z_lt_le_dec 53 dp); [|lia].
    assert (2 ^ 53 <= 2 ^ (dp - 1)) by (apply Z.pow_le_mono_r; lia). lia. }
  assert (Hdf : 1 <= df <= 53).
  { split; [unfold df; lia|]. destruct (Z_lt_le_dec 53 df); [|lia].
    assert (2 ^ 53 <= 2 ^ (df - 1)) by (apply Z.pow_le_mono_r; lia). lia. }
  unfold div, SFdiv, SFdiv_core_binary. cbn [Zdigits2 xorb].
  rewrite (digits2_pos_unique mp 53), (digits2_pos_unique mf 53) by (cbn; lia).
  rewrite fexp_eq by lia.
  replace (Z.min (53 + (dp - 53) - (53 + (df - 53)) - 53) (dp - 53 - (df - 53)))
    with (dp - df - 53) by lia.
  replace (dp - 53 - (df - 53) - (dp - df - 53)) with 53 by lia.
  rewrite Z.shiftl_mul_pow2 by lia.
  destruct (Z.div_eucl (Z.pos mp * 2 ^ 53) (Z.pos mf)) as [q r] eqn:Ediv.
  assert (Eq : q = (Z.pos mp * 2 ^ 53) / Z.pos mf) by (unfold Z.div; rewrite Ediv; reflexivity).
  assert (Er : r = (Z.pos mp * 2 ^ 53) mod Z.pos mf) by (unfold Z.modulo; rewrite Ediv; reflexivity).
  assert (Hq : 2 ^ 52 <= q < 2 ^ 54).
  { rewrite Eq. split.
    - apply Z.div_le_lower_bound; [lia|]. nia.
    - apply Z.div_lt_upper_bound; [lia|]. nia. }
  destruct (binary_round_aux_shape false q (dp - df - 53) (new_location (Z.pos mf) r))
    as (m'' & e'' & Hr & Hb & Hc); [exact Hq | lia |].
  exists m'', e''. split; [exact Hr|]. split; [exact Hb|].
  intros Hle.
  assert (Hdle : dp <= df).
  { destruct (Z_lt_le_dec df dp); [|lia].
    assert (2 ^ df <= 2 ^ (dp - 1)) by (apply Z.pow_le_mono_r; lia). lia. }
  assert (Hcarry : 0 <= carry q <= 1) by (unfold carry; destruct (q <? 2 ^ 53); lia).
  destruct (Z.eq_dec dp df) as [Heq|Hne]; [|lia].
  assert (Hm : Z.pos mp <= Z.pos mf).
  { rewrite Hmp, Hmf, Heq. apply Z.mul_le_mono_nonneg_r; [apply Z.pow_nonneg|]; lia. }
  destruct (Z.eq_dec (Z.pos mp) (Z.pos mf)) as [Hmeq|Hmne].
  - (* equal operands: the quotient is exactly one *)
    revert Hr. rewrite Hmeq in Eq, Er.
    rewrite (Z.mul_comm (Z.pos mf)), Z.div_mul in Eq by lia.
    rewrite (Z.mul_comm (Z.pos mf)), Z.mod_mul in Er by lia.
    rewrite Eq, Er, new_location_0.
    replace (dp - df - 53) with (-53) by lia.
    change (binary_round_aux prec emax false (2 ^ 53) (-53) loc_Exact)
      with (S754_finite false 4503599627370496 (-52)).
    intros [= <- <-]. right. split; reflexivity.
  - assert (q < 2 ^ 53).
    { rewrite Eq. apply Z.div_lt_upper_bound; [lia|]. nia. }
    assert (carry q = 0) by (unfold carry; destruct (Z.ltb_spec q (2 ^ 53)); lia).
    lia.
Qed.

Lemma ofZ_uint32 (v : Z) :
  netframework.uint32 v ->
  toZ (ofZ v) = Some v /\ is_finite (ofZ v) = true /\ leb zero (ofZ v) = true.
Proof.
  unfold netframework.uint32. intros Hv.
  split; [apply toZ_ofZ; lia|].
  destruct v as [|p|p]; try lia; [split; reflexivity|].
  destruct (ofZ_pos p) as (m & -> & _); [lia|]. split; reflexivity.
Qed.

(** A quotient of 32-bit counters is finite exactly when the divisor is
    not zero. *)
Lemma div_uint32_finite (p f : Z) :
  netframework.uint32 p -> netframework.uint32 f ->
  (is_finite (div (ofZ p) (ofZ f)) = true <-> f <> 0).
Proof.
  unfold netframework.uint32. intros Hp Hf.
  destruct f as [|f|f]; try lia.
  - split; [|congruence].
    destruct p as [|p|p]; try lia; [discriminate|].
    destruct (ofZ_pos p) as (m & -> & _); [lia|]. discriminate.
  - split; [discriminate|]. intros _.
    destruct p as [|p|p]; try lia.
    + destruct (ofZ_pos f) as (m & -> & _); [lia|]. reflexivity.
    + destruct (div_ofZ_pos p f) as (m & e & -> & _); [lia|lia|]. reflexivity.
Qed.

(** A quotient of 32-bit counters with the numerator not above the
    non-zero divisor lies between zero and one. *)
Lemma div_uint32_unit (p f : Z) :
  netframework.uint32 p -> netframework.uint32 f -> p <= f -> f <> 0 ->
  leb zero (div (ofZ p) (ofZ f)) = true /\ leb (div (ofZ p) (ofZ f)) one = true.
Proof.
  unfold netframework.uint32. intros Hp Hf Hle Hnz.
  destruct f as [|f|f]; try lia.
  destruct p as [|p|p]; try lia.
  - destruct (ofZ_pos f) as (m & -> & _); [lia|]. split; reflexivity.
  - destruct (div_ofZ_pos p f) as (m & e & -> & Hm & Hone); [lia|lia|].
    split; [reflexivity|].
    unfold leb, SFleb, one, SFcompare.
    destruct (Hone Hle) as [Hlt | [-> Heq]].
    + rewrite (proj2 (Z.compare_lt_iff e (-52)) Hlt). reflexivity.
    + cbn [Z.compare Pos.compare].
      assert (m = 4503599627370496%positive) as -> by lia. reflexivity.
Qed.

(** ** netframework: CLR exceptions and CLR JIT *)

Section NetFramework.

Import netframework NETCLRExceptions NETCLRJit.

Variables ns name ce cj : string.

Lemma collectClrExceptionsRow_samples (c : netframework.Collector) row (ch : Chan) :
  let cE := buildClrExceptions ns name ce c in
  collectClrExceptionsRow cE row ch =
  Returns tt (ch ++ perInstance NETCLRExceptions.Name (exceptionsSamples cE) row)%list.
Proof.
  cbv zeta. unfold collectClrExceptionsRow, perInstance.
  destruct (String.eqb (NETCLRExceptions.Name row) "_Global_").
  - unfold ret. now rewrite app_nil_r.
  - cbv [bind MustNewConstMetric buildClrExceptions numberOfExceptionsThrown numberOfFilters
         numberOfFinally throwToCatchDepth NewDesc variableLabels List.length Nat.eqb ret
         netframework.send modify exceptionsSamples netframework.sample].
    now rewrite <- !app_assoc.
Qed.

Lemma collectClrJITRow_samples (c : netframework.Collector) row (ch : Chan) :
  let cJ := buildClrJIT ns name cj c in
  collectClrJITRow cJ row ch =
  Returns tt (ch ++ perInstance NETCLRJit.Name (jitSamples cJ) row)%list.
Proof.
  cbv zeta. unfold collectClrJITRow, perInstance.
  destruct (String.eqb (NETCLRJit.Name row) "_Global_").
  - unfold ret. now rewrite app_nil_r.
  - cbv [bind MustNewConstMetric buildClrJIT numberOfMethodsJitted timeInJit
         standardJitFailures totalNumberOfILBytesJitted NewDesc variableLabels List.length
         Nat.eqb ret netframework.send modify jitSamples netframework.sample timeInJitValue].
    now rewrite <- !app_assoc.
Qed.

Lemma collectClrExceptions_samples (c : netframework.Collector) dst (ch : Chan) :
  Query_NETCLRExceptions (miSession c) = (dst, None) ->
  let cE := buildClrExceptions ns name ce c in
  collectClrExceptions cE ch =
  Returns None (ch ++ flat_map (perInstance NETCLRExceptions.Name (exceptionsSamples cE)) dst)%list.
Proof.
  intros HQ cE. unfold collectClrExceptions.
  change (miSession cE) with (miSession c). rewrite HQ. unfold bind.
  rewrite (forRange_flat_map (fun ms ch => (ch ++ ms)%list))
    with (f := perInstance NETCLRExceptions.Name (exceptionsSamples cE)).
  - reflexivity.
  - intros s. apply app_nil_r.
  - intros a b s. symmetry. apply app_assoc.
  - intros x s. apply collectClrExceptionsRow_samples.
Qed.

Lemma collectClrJIT_samples (c : netframework.Collector) dst (ch : Chan) :
  Query_NETCLRJit (miSession c) = (dst, None) ->
  let cJ := buildClrJIT ns name cj c in
  collectClrJIT cJ ch =
  Returns None (ch ++ flat_map (perInstance NETCLRJit.Name (jitSamples cJ)) dst)%list.
Proof.
  intros HQ cJ. unfold collectClrJIT.
  change (miSession cJ) with (miSession c). rewrite HQ. unfold bind.
  rewrite (forRange_flat_map (fun ms ch => (ch ++ ms)%list))
    with (f := perInstance NETCLRJit.Name (jitSamples cJ)).
  - reflexivity.
  - intros s. apply app_nil_r.
  - intros a b s. symmetry. apply app_assoc.
  - intros x s. apply collectClrJITRow_samples.
Qed.

(** C2. In the CLR exceptions and CLR JIT collectors, whatever rows the
    query returns, [Collect] sends the samples of the rows in order, where
    a row named ["_Global_"] contributes no sample and every other row
    contributes its four samples, each labelled with the row's name. *)
Theorem C2_global_row_emits_nothing (c : netframework.Collector) dstE dstJ (ch : Chan) :
  Query_NETCLRExceptions (miSession c) = (dstE, None) ->
  Query_NETCLRJit (miSession c) = (dstJ, None) ->
  let cE := buildClrExceptions ns name ce c in
  let cJ := buildClrJIT ns name cj c in
  collectClrExceptions cE ch =
    Returns None (ch ++ flat_map (perInstance NETCLRExceptions.Name (exceptionsSamples cE)) dstE)%list /\
  collectClrJIT cJ ch =
    Returns None (ch ++ flat_map (perInstance NETCLRJit.Name (jitSamples cJ)) dstJ)%list /\
  (forall row, NETCLRExceptions.Name row = "_Global_" ->
     perInstance NETCLRExceptions.Name (exceptionsSamples cE) row = []) /\
  (forall row, NETCLRJit.Name row = "_Global_" ->
     perInstance NETCLRJit.Name (jitSamples cJ) row = []) /\
  (exists d1 d2 d3 d4, forall row, NETCLRExceptions.Name row <> "_Global_" ->
     perInstance NETCLRExceptions.Name (exceptionsSamples cE) row =
     [mkMetric d1 CounterValue (ofZ (NumberofExcepsThrown row)) [NETCLRExceptions.Name row];
      mkMetric d2 CounterValue (ofZ (NumberofFiltersPersec row)) [NETCLRExceptions.Name row];
      mkMetric d3 CounterValue (ofZ (NumberofFinallysPersec row)) [NETCLRExceptions.Name row];
      mkMetric d4 CounterValue (ofZ (ThrowToCatchDepthPersec row)) [NETCLRExceptions.Name row]]) /\
  (exists d1 d2 d3 d4, forall row, NETCLRJit.Name row <> "_Global_" ->
     perInstance NETCLRJit.Name (jitSamples cJ) row =
     [mkMetric d1 CounterValue (ofZ (NumberofMethodsJitted row)) [NETCLRJit.Name row];
      mkMetric d2 GaugeValue (timeInJitValue row) [NETCLRJit.Name row];
      mkMetric d3 GaugeValue (ofZ (StandardJitFailures row)) [NETCLRJit.Name row];
      mkMetric d4 CounterValue (ofZ (TotalNumberofILBytesJitted row)) [NETCLRJit.Name row]]).
Proof.
  intros HE HJ cE cJ.
  split; [now apply collectClrExceptions_samples|].
  split; [now apply collectClrJIT_samples|].
  split; [intros row Hn; unfold perInstance; now rewrite Hn|].
  split; [intros row Hn; unfold perInstance; now rewrite Hn|].
  split.
  - eexists _, _, _, _. intros row Hn. unfold perInstance.
    destruct (String.eqb_spec (NETCLRExceptions.Name row) "_Global_"); [contradiction|].
    reflexivity.
  - eexists _, _, _, _. intros row Hn. unfold perInstance.
    destruct (String.eqb_spec (NETCLRJit.Name row) "_Global_"); [contradiction|].
    reflexivity.
Qed.

End NetFramework.

Section NetFrameworkValues.

Import netframework NETCLRExceptions NETCLRJit.

Variables ns name ce cj : string.

(** C8. A 32-bit unsigned counter converted to float64 stands for exactly
    the same integer: the result is finite, not negative, and reading it
    back gives the counter; so do the counter samples of the CLR
    exceptions and CLR JIT rows, and 4294967295 becomes 4294967295.0. *)
Theorem C8_uint32_to_float64_lossless (v : Z) (c : netframework.Collector) rowE rowJ :
  uint32 v -> uint32Exceptions rowE -> uint32Jit rowJ ->
  toZ (ofZ v) = Some v /\ is_finite (ofZ v) = true /\ leb zero (ofZ v) = true /\
  map (fun m => toZ (value m)) (exceptionsSamples (buildClrExceptions ns name ce c) rowE) =
    [Some (NumberofExcepsThrown rowE); Some (NumberofFiltersPersec rowE);
     Some (NumberofFinallysPersec rowE); Some (ThrowToCatchDepthPersec rowE)] /\
  map (fun m => toZ (value m))
      (firstn 1 (jitSamples (buildClrJIT ns name cj c) rowJ) ++
       skipn 2 (jitSamples (buildClrJIT ns name cj c) rowJ)) =
    [Some (NumberofMethodsJitted rowJ); Some (StandardJitFailures rowJ);
     Some (TotalNumberofILBytesJitted rowJ)] /\
  ofZ 4294967295 = S754_finite false 9007199252643840 (-21) /\
  toZ (S754_finite false 9007199252643840 (-21)) = Some 4294967295.
Proof.
  intros Hv (E1 & E2 & E3 & E4 & E5) (J1 & J2 & J3 & J4 & J5 & J6 & J7).
  destruct (ofZ_uint32 v Hv) as (A & B & C).
  repeat split; try assumption.
  - cbn [exceptionsSamples buildClrExceptions numberOfExceptionsThrown numberOfFilters
         numberOfFinally throwToCatchDepth NewDesc netframework.sample app map value].
    now rewrite (proj1 (ofZ_uint32 _ E1)), (proj1 (ofZ_uint32 _ E3)),
                (proj1 (ofZ_uint32 _ E4)), (proj1 (ofZ_uint32 _ E5)).
  - cbn [jitSamples buildClrJIT numberOfMethodsJitted timeInJit standardJitFailures
         totalNumberOfILBytesJitted NewDesc netframework.sample app map value firstn skipn].
    now rewrite (proj1 (ofZ_uint32 _ J4)), (proj1 (ofZ_uint32 _ J6)),
                (proj1 (ofZ_uint32 _ J7)).
Qed.

(** C9. The time-in-JIT quotient has no guard on its divisor: a row other
    than the aggregate one always runs to the end and sends its four
    samples, the second being the quotient; that quotient is a finite
    number exactly when [Frequency_PerfTime] is not zero. *)
Theorem C9_time_in_jit_unguarded_divisor (c : netframework.Collector) row (ch : Chan) :
  NETCLRJit.Name row <> "_Global_" -> uint32Jit row ->
  let cJ := buildClrJIT ns name cj c in
  collectClrJITRow cJ row ch = Returns tt (ch ++ jitSamples cJ row)%list /\
  List.length (jitSamples cJ row) = 4%nat /\
  option_map value (nth_error (jitSamples cJ row) 1) =
    Some (div (ofZ (PercentTimeinJit row)) (ofZ (Frequency_PerfTime row))) /\
  (is_finite (div (ofZ (PercentTimeinJit row)) (ofZ (Frequency_PerfTime row))) = true <->
   Frequency_PerfTime row <> 0).
Proof.
  intros Hn (J1 & J2 & J3 & J4 & J5 & J6 & J7) cJ.
  split.
  - unfold cJ. rewrite collectClrJITRow_samples. unfold perInstance.
    destruct (String.eqb_spec (NETCLRJit.Name row) "_Global_"); [contradiction|reflexivity].
  - split; [reflexivity|]. split; [reflexivity|].
    now apply div_uint32_finite.
Qed.

(** C7 (as amended). For a row other than the aggregate one, the second
    sample sent is the time-in-JIT gauge and its value is
    [float64(PercentTimeinJit) / float64(Frequency_PerfTime)], computed
    from the row at hand; it lies between 0 and 1 when the numerator is
    not above a non-zero divisor, and 50 over 100 gives 0.5. *)
Theorem C7_time_in_jit_quotient (c : netframework.Collector) row (ch : Chan) :
  NETCLRJit.Name row <> "_Global_" ->
  let cJ := buildClrJIT ns name cj c in
  let q := div (ofZ (PercentTimeinJit row)) (ofZ (Frequency_PerfTime row)) in
  (exists d, timeInJit cJ = Some d /\
     collectClrJITRow cJ row ch = Returns tt (ch ++ jitSamples cJ row)%list /\
     nth_error (jitSamples cJ row) 1 = Some (mkMetric d GaugeValue q [NETCLRJit.Name row])) /\
  (uint32 (PercentTimeinJit row) -> uint32 (Frequency_PerfTime row) ->
   PercentTimeinJit row <= Frequency_PerfTime row -> Frequency_PerfTime row <> 0 ->
   unitFraction q = true) /\
  (PercentTimeinJit row = 50 -> Frequency_PerfTime row = 100 -> q = half).
Proof.
  intros Hn cJ q. split; [|split].
  - eexists. split; [reflexivity|]. split; [|reflexivity].
    unfold cJ. rewrite collectClrJITRow_samples. unfold perInstance.
    destruct (String.eqb_spec (NETCLRJit.Name row) "_Global_"); [contradiction|reflexivity].
  - intros Hp Hf Hle Hnz. unfold unitFraction, q.
    destruct (div_uint32_unit _ _ Hp Hf Hle Hnz) as [-> ->]. reflexivity.
  - intros Hp Hf. unfold q. rewrite Hp, Hf. reflexivity.
Qed.

End NetFrameworkValues.

(** C2, at a query answering the aggregate row and the row of [w3wp]. *)
Lemma C2_witness :
  let c := examples.clrCollector in
  netframework.Query_NETCLRExceptions (netframework.miSession c) =
    ([examples.exceptionsRow "_Global_"; examples.exceptionsRow "w3wp"], None) /\
  netframework.Query_NETCLRJit (netframework.miSession c) =
    ([examples.jitRow "_Global_" 50 100; examples.jitRow "w3wp" 50 100], None) /\
  List.length (final (netframework.collectClrExceptions
    (netframework.buildClrExceptions "windows" "netframework" "clrexceptions" c) [])) = 4%nat.
Proof.
  split; [reflexivity|]. split; [reflexivity|].
  rewrite (proj1 (C2_global_row_emits_nothing "windows" "netframework" "clrexceptions" "clrjit"
                    examples.clrCollector _ _ [] eq_refl eq_refl)).
  reflexivity.
Defined.

(** C8, at the largest 32-bit value. *)
Lemma C8_witness :
  netframework.uint32 4294967295 /\
  netframework.uint32Exceptions (examples.exceptionsRow "w3wp") /\
  netframework.uint32Jit (examples.jitRow "w3wp" 50 100) /\
  toZ (ofZ 4294967295) = Some 4294967295.
Proof.
  assert (H1 : netframework.uint32 4294967295) by (unfold netframework.uint32; lia).
  assert (H2 : netframework.uint32Exceptions (examples.exceptionsRow "w3wp"))
    by (unfold netframework.uint32Exceptions, netframework.uint32; cbn; lia).
  assert (H3 : netframework.uint32Jit (examples.jitRow "w3wp" 50 100))
    by (unfold netframework.uint32Jit, netframework.uint32; cbn; lia).
  split; [exact H1|]. split; [exact H2|]. split; [exact H3|].
  exact (proj1 (C8_uint32_to_float64_lossless "windows" "netframework" "clrexceptions" "clrjit"
                  4294967295 examples.noDescs _ _ H1 H2 H3)).
Defined.

(** C9, at a row whose frequency is zero. *)
Lemma C9_witness :
  let row := examples.jitRow "w3wp" 50 0 in
  netframework.NETCLRJit.Name row <> "_Global_" /\ netframework.uint32Jit row /\
  List.length (final (netframework.collectClrJITRow
    (netframework.buildClrJIT "windows" "netframework" "clrjit" examples.noDescs) row [])) = 4%nat /\
  is_finite (div (ofZ 50) (ofZ 0)) = false.
Proof.
  assert (H1 : netframework.NETCLRJit.Name (examples.jitRow "w3wp" 50 0) <> "_Global_")
    by discriminate.
  assert (H2 : netframework.uint32Jit (examples.jitRow "w3wp" 50 0))
    by (unfold netframework.uint32Jit, netframework.uint32; cbn; lia).
  split; [exact H1|]. split; [exact H2|]. split; [|reflexivity].
  rewrite (proj1 (C9_time_in_jit_unguarded_divisor "windows" "netframework" "clrjit"
                    examples.noDescs _ [] H1 H2)).
  reflexivity.
Defined.

(** C7, at the row with 50 over 100. *)
Lemma C7_witness :
  let row := examples.jitRow "w3wp" 50 100 in
  netframework.NETCLRJit.Name row <> "_Global_" /\
  div (ofZ 50) (ofZ 100) = half.
Proof.
  assert (H1 : netframework.NETCLRJit.Name (examples.jitRow "w3wp" 50 100) <> "_Global_")
    by discriminate.
  split; [exact H1|].
  exact (proj2 (proj2 (C7_time_in_jit_quotient "windows" "netframework" "clrjit"
                         examples.noDescs _ [] H1)) eq_refl eq_refl).
Defined.

(** C7 as stated fails: a row with 200 over 100 is not the aggregate row,
    holds 32-bit values, and its gauge is sent with the value 2.0, which is
    not between 0 and 1. *)
Lemma C7_counterexample :
  let row := examples.jitRow "w3wp" 200 100 in
  netframework.NETCLRJit.Name row <> "_Global_" /\ netframework.uint32Jit row /\
  option_map value (nth_error (final (netframework.collectClrJITRow
    (netframework.buildClrJIT "windows" "netframework" "clrjit" examples.noDescs) row [])) 1)
    = Some two /\
  unitFraction two = false.
Proof.
  split; [discriminate|].
  split; [unfold netframework.uint32Jit, netframework.uint32; cbn; lia|].
  split; reflexivity.
Qed.

(** ** scheduled_task *)

Lemma Folder_nested_ind (P : Folder -> Prop) :
  (forall path getTasks getFolders,
     match getFolders with inl subFolders => Forall P subFolders | inr _ => True end ->
     P (mkFolder path getTasks getFolders)) ->
  forall folder, P folder.
Proof.
  intros Hstep. fix IH 1. intros [path getTasks getFolders].
  apply Hstep. destruct getFolders as [subFolders|]; [|exact I].
  induction subFolders as [|sub rest IHrest]; constructor; [apply IH | exact IHrest].
Qed.

Section ScheduledTask.

Import scheduled_task.

Variable ns : string.
Variables reE reA : Regexp.

Lemma emitAll_nil w : emitAll [] w = w.
Proof. destruct w. unfold emitAll. cbn. now rewrite app_nil_r. Qed.

Lemma emitAll_app a b w : emitAll b (emitAll a w) = emitAll (a ++ b)%list w.
Proof. unfold emitAll. cbn. now rewrite app_assoc. Qed.

Lemma fetched_nil w : fetched [] [] w = w.
Proof. destruct w. unfold fetched. cbn. now rewrite !app_nil_r. Qed.

Lemma fetched_app t1 c1 t2 c2 w :
  fetched t2 c2 (fetched t1 c1 w) = fetched (t1 ++ t2)%list (c1 ++ c2)%list w.
Proof. unfold fetched. cbn. now rewrite map_app, !app_assoc. Qed.

(** The loop of [fetchTasksInFolder] over tasks that all parse. *)
Lemma ForEach_parseTask tasks :
  forallb parses tasks = true ->
  forall w,
  ForEach (fun task =>
    let (parsedTask, err) := parseTask task in
    match err with
    | Some e => ret (Some e)
    | None => appendTask parsedTask ;; ret None
    end) tasks w = Returns None (fetched tasks [] w).
Proof.
  induction tasks as [|t tasks IH]; intros Hall w.
  - cbn. unfold ret. now rewrite fetched_nil.
  - cbn [forallb] in Hall. apply andb_true_iff in Hall as [Ht Hall].
    cbn [ForEach]. unfold bind at 1. unfold parses in Ht.
    destruct (parseTask t) as [pt err] eqn:E. cbn [snd] in Ht.
    destruct err; [discriminate|].
    unfold bind, appendTask, modify, ret.
    rewrite (IH Hall).
    f_equal. unfold fetched. cbn. rewrite E. cbn. now rewrite <- !app_assoc.
Qed.

Lemma ForEach_folders (subFolders : list Folder) :
  Forall (fun sub => healthy sub = true ->
            forall w, fetchTasksRecursively sub w =
                      Returns None (fetched (folderTasks sub) (folderCalls sub) w)) subFolders ->
  forallb healthy subFolders = true ->
  forall w, ForEach (fun subFolder => fetchTasksRecursively subFolder) subFolders w =
            Returns None (fetched (flat_map folderTasks subFolders)
                                  (flat_map folderCalls subFolders) w).
Proof.
  induction 1 as [|sub rest Hsub _ IH]; intros Hall w.
  - cbn. unfold ret. now rewrite fetched_nil.
  - cbn [forallb] in Hall. apply andb_true_iff in Hall as [Hs Hall].
    cbn [ForEach flat_map]. unfold bind. rewrite (Hsub Hs), (IH Hall), fetched_app.
    reflexivity.
Qed.

Lemma called_fetched c w : called c w = Returns tt (fetched [] [c] w).
Proof. unfold called, modify, fetched. cbn. now rewrite app_nil_r. Qed.

Lemma fetchTasksInFolder_healthy path tasks getFolders :
  forallb parses tasks = true ->
  forall w, fetchTasksInFolder (mkFolder path (inl tasks) getFolders) w =
            Returns None (fetched tasks [CallGetTasks path] w).
Proof.
  intros Ht w. cbn [fetchTasksInFolder]. unfold bind.
  rewrite called_fetched, (ForEach_parseTask tasks Ht), fetched_app. reflexivity.
Qed.

Lemma fetchTasksRecursively_healthy folder :
  healthy folder = true ->
  forall w, fetchTasksRecursively folder w =
            Returns None (fetched (folderTasks folder) (folderCalls folder) w).
Proof.
  induction folder as [path getTasks getFolders IH] using Folder_nested_ind.
  intros Hh w. cbn [healthy] in Hh. apply andb_true_iff in Hh as [Ht Hf].
  destruct getTasks as [tasks|]; [|discriminate].
  destruct getFolders as [subFolders|]; [|discriminate].
  cbn [fetchTasksRecursively folderTasks folderCalls].
  unfold bind at 1. rewrite (fetchTasksInFolder_healthy path tasks _ Ht).
  unfold bind. rewrite called_fetched, (ForEach_folders subFolders IH Hf), !fetched_app.
  reflexivity.
Qed.

End ScheduledTask.

Section ScheduledTaskClaims.

Import scheduled_task.

Variable ns : string.
Variables reE reA : Regexp.

Lemma countCall_app c a b : countCall c (a ++ b) = (countCall c a + countCall c b)%nat.
Proof. unfold countCall. now rewrite filter_app, length_app. Qed.

(** Each folder path is called as often as it occurs in the tree. *)
Lemma countCall_folderCalls (p : string) folder :
  countCall (CallGetTasks p) (folderCalls folder) = count_occ string_dec (folderPaths folder) p /\
  countCall (CallGetFolders p) (folderCalls folder) = count_occ string_dec (folderPaths folder) p.
Proof.
  induction folder as [path getTasks getFolders IH] using Folder_nested_ind.
  cbn [folderCalls folderPaths count_occ].
  change (CallGetTasks path :: CallGetFolders path :: ?r)
    with ([CallGetTasks path; CallGetFolders path] ++ r)%list.
  rewrite !countCall_app.
  assert (Hrest :
    countCall (CallGetTasks p)
      match getFolders with inl s => flat_map folderCalls s | inr _ => [] end =
    count_occ string_dec match getFolders with inl s => flat_map folderPaths s | inr _ => [] end p /\
    countCall (CallGetFolders p)
      match getFolders with inl s => flat_map folderCalls s | inr _ => [] end =
    count_occ string_dec match getFolders with inl s => flat_map folderPaths s | inr _ => [] end p).
  { destruct getFolders as [subFolders|]; [|split; reflexivity].
    induction IH as [|sub rest [H1 H2] _ [IH1 IH2]]; [split; reflexivity|].
    cbn [flat_map]. rewrite !countCall_app, count_occ_app. split; congruence. }
  destruct Hrest as [-> ->].
  unfold countCall. cbn [filter Call_eqb List.length].
  destruct (string_dec path p) as [->|Hne].
  - rewrite String.eqb_refl. split; reflexivity.
  - destruct (String.eqb_spec p path) as [->|_]; [contradiction|]. split; reflexivity.
Qed.

Lemma length_folderCalls folder :
  List.length (folderCalls folder) = (2 * List.length (folderPaths folder))%nat.
Proof.
  induction folder as [path getTasks getFolders IH] using Folder_nested_ind.
  cbn [folderCalls folderPaths List.length].
  destruct getFolders as [subFolders|]; [|reflexivity].
  assert (List.length (flat_map folderCalls subFolders)
          = (2 * List.length (flat_map folderPaths subFolders))%nat) as ->; [|lia].
  induction IH as [|sub rest H _ IHrest]; [reflexivity|].
  cbn [flat_map]. rewrite !length_app. lia.
Qed.

(** C6. On a folder tree in which no automation call fails,
    [fetchTasksRecursively] returns, without error, after appending the
    parsed tasks of every folder to the slice: one entry per task object
    of the tree, a folder's own tasks before those of its sub-folders,
    the sub-folders from first to last.  It calls [GetTasks] and
    [GetFolders] once per folder of the tree; when the folders have
    distinct paths, exactly once on each path. *)
Theorem C6_fetchTasksRecursively_visits_each_task_once (folder : Folder) (w : World) :
  healthy folder = true ->
  fetchTasksRecursively folder w =
    Returns None (fetched (folderTasks folder) (folderCalls folder) w) /\
  scheduledTasks (final (fetchTasksRecursively folder w)) =
    (scheduledTasks w ++ map (fun t => fst (parseTask t)) (folderTasks folder))%list /\
  (forall path tasks subFolders,
     folder = mkFolder path (inl tasks) (inl subFolders) ->
     folderTasks folder = (tasks ++ flat_map folderTasks subFolders)%list) /\
  List.length (folderCalls folder) = (2 * List.length (folderPaths folder))%nat /\
  (NoDup (folderPaths folder) ->
   forall p, In p (folderPaths folder) ->
     countCall (CallGetTasks p) (folderCalls folder) = 1%nat /\
     countCall (CallGetFolders p) (folderCalls folder) = 1%nat).
Proof.
  intros Hh. pose proof (fetchTasksRecursively_healthy folder Hh w) as Hrun.
  split; [exact Hrun|]. split; [now rewrite Hrun|].
  split; [intros path tasks subFolders ->; reflexivity|].
  split; [apply length_folderCalls|].
  intros Hnd p Hin.
  destruct (countCall_folderCalls p folder) as [-> ->].
  assert (count_occ string_dec (folderPaths folder) p = 1%nat); [|tauto].
  pose proof (proj1 (NoDup_count_occ string_dec _) Hnd p).
  pose proof (proj1 (count_occ_In string_dec _ p) Hin). lia.
Qed.

(** The collector built from a configuration whose patterns are set. *)
Lemma collectTask_samples (c0 : Collector) inc exc task (w : World) :
  TaskInclude (config c0) = Some inc -> TaskExclude (config c0) = Some exc ->
  let c := fst (Build ns c0) in
  collectTask c task w =
  Returns tt (emitAll (if passes inc exc (Path task) then taskSamples c task else []) w).
Proof.
  intros Hi He c. unfold collectTask, passes.
  change (config c) with (config c0). rewrite Hi, He.
  unfold MatchString, bind at 1, ret at 1.
  destruct (matches exc (Path task)).
  - rewrite andb_false_r. unfold ret. now rewrite emitAll_nil.
  - unfold bind at 1, ret at 1. destruct (matches inc (Path task)); cbn [negb andb].
    + unfold taskSamples, resultSamples, stateSamples.
      destruct (LastTaskResult task =? SCHED_S_TASK_HAS_NOT_RUN);
        cbv [forRange TASK_STATES bind MustNewConstMetric c Build fst state lastResult missedRuns
             NewDesc variableLabels List.length Nat.eqb ret send modify emitAll
             flat_map sample];
        cbn [ch scheduledTasks calls]; rewrite <- ?app_assoc; reflexivity.
    + unfold ret. now rewrite emitAll_nil.
Qed.

Lemma New_patterns cfg :
  exists inc exc,
    TaskInclude (config (New reE reA cfg)) = Some inc /\
    TaskExclude (config (New reE reA cfg)) = Some exc.
Proof.
  unfold New. destruct cfg as [[[exc|] [inc|]]|]; cbn; eauto.
Qed.

(** C3. For a task that passes the include/exclude filter, the collector
    sends the state samples and then the result samples of the task.  When
    its state is RUNNING the state samples are five, with value 0 for
    "disabled", "queued", "ready" and "unknown" and value 1 for
    "running".  When its last result is the has-not-run code 0x41303 there
    is no result sample; otherwise there are two, last_result (1 when the
    result is 0, else 0) and missed_runs. *)
Theorem C3_running_state_and_has_not_run cfg task (w : World) inc exc :
  let c := fst (Build ns (New reE reA cfg)) in
  TaskInclude (config c) = Some inc -> TaskExclude (config c) = Some exc ->
  passes inc exc (Path task) = true ->
  exists dS dL dM,
    state c = Some dS /\ lastResult c = Some dL /\ missedRuns c = Some dM /\
    collectTask c task w =
      Returns tt (emitAll (stateSamples c task ++ resultSamples c task) w) /\
    (State task = TASK_STATE_RUNNING ->
     stateSamples c task =
       [mkMetric dS GaugeValue zero [Path task; "disabled"];
        mkMetric dS GaugeValue zero [Path task; "queued"];
        mkMetric dS GaugeValue zero [Path task; "ready"];
        mkMetric dS GaugeValue one [Path task; "running"];
        mkMetric dS GaugeValue zero [Path task; "unknown"]]) /\
    (LastTaskResult task = SCHED_S_TASK_HAS_NOT_RUN -> resultSamples c task = []) /\
    (LastTaskResult task <> SCHED_S_TASK_HAS_NOT_RUN ->
     resultSamples c task =
       [mkMetric dL GaugeValue
          (if LastTaskResult task =? SCHED_S_SUCCESS then one else zero) [Path task];
        mkMetric dM GaugeValue (MissedRunsCount task) [Path task]]).
Proof.
  intros c Hi He Hp.
  eexists _, _, _. split; [reflexivity|]. split; [reflexivity|]. split; [reflexivity|].
  split.
  - unfold c. rewrite (collectTask_samples (New reE reA cfg) inc exc task w Hi He), Hp.
    reflexivity.
  - split; [|split].
    + intros Hs. unfold stateSamples. rewrite Hs. reflexivity.
    + intros Hr. unfold resultSamples. rewrite Hr. reflexivity.
    + intros Hr. unfold resultSamples.
      destruct (Z.eqb_spec (LastTaskResult task) SCHED_S_TASK_HAS_NOT_RUN); [contradiction|].
      reflexivity.
Qed.

End ScheduledTaskClaims.

Section IncludeExclude.

Import scheduled_task.

Variables ns name ce cj : string.
Variables reE reA : Regexp.

Lemma flat_map_filter {A B} (keep : A -> bool) (f : A -> list B) (l : list A) :
  flat_map (fun x => if keep x then f x else []) l = flat_map f (filter keep l).
Proof.
  induction l as [|x l IH]; [reflexivity|]. cbn [flat_map filter].
  destruct (keep x); cbn [flat_map]; now rewrite IH.
Qed.

Lemma collect_samples (c0 : Collector) inc exc (h : Host) (w w1 : World) tasks :
  TaskInclude (config c0) = Some inc -> TaskExclude (config c0) = Some exc ->
  getScheduledTasks h w = Returns (tasks, None) w1 ->
  let c := fst (Build ns c0) in
  collect c h w =
  Returns None (emitAll (flat_map (taskSamples c)
                           (filter (fun t => passes inc exc (Path t)) tasks)) w1).
Proof.
  intros Hi He Hget c. unfold collect, bind at 1. rewrite Hget. unfold bind.
  rewrite (forRange_flat_map emitAll emitAll_nil emitAll_app
             (fun t => if passes inc exc (Path t) then taskSamples c t else [])).
  - unfold ret. now rewrite flat_map_filter.
  - intros t s. now apply collectTask_samples.
Qed.

(** Every sample of a task carries the task's path as its first label,
    and a task has at least one sample once the collector is built. *)
Lemma taskSamples_labels (c0 : Collector) task :
  let c := fst (Build ns c0) in
  Forall (fun m => hd_error (labelValues m) = Some (Path task)) (taskSamples c task) /\
  exists m, In m (taskSamples c task).
Proof.
  cbv zeta. unfold taskSamples, stateSamples, resultSamples. split.
  - apply Forall_app. split.
    + cbn. repeat constructor.
    + destruct (LastTaskResult task =? SCHED_S_TASK_HAS_NOT_RUN); cbn; repeat constructor.
  - eexists. apply in_or_app. left. cbn. left. reflexivity.
Qed.

(** C1 (as amended). The scheduled_task collector sends the samples of
    exactly those fetched tasks whose path matches the include pattern and
    does not match the exclude pattern: a sample labelled with a path is
    sent if and only if a fetched task has that path, include matches it
    and exclude does not.  The CLR exceptions and CLR JIT collectors take
    no include or exclude pattern: whatever the patterns, they send the
    samples of every row except the one named ["_Global_"]. *)
Theorem C1_include_exclude_scheduled_task_only (inc exc : Regexp) (h : Host) (w w1 : World)
    tasks (cN : netframework.Collector) rowE rowJ (chN : Chan) :
  let c := fst (Build ns (New reE reA
                  (Some {| TaskExclude := Some exc; TaskInclude := Some inc |}))) in
  getScheduledTasks h w = Returns (tasks, None) w1 ->
  let sent := flat_map (taskSamples c) (filter (fun t => passes inc exc (Path t)) tasks) in
  let cE := netframework.buildClrExceptions ns name ce cN in
  let cJ := netframework.buildClrJIT ns name cj cN in
  collect c h w = Returns None (emitAll sent w1) /\
  (forall p,
     (exists m, In m sent /\ hd_error (labelValues m) = Some p) <->
     ((exists t, In t tasks /\ Path t = p) /\
      matches inc p = true /\ matches exc p = false)) /\
  netframework.collectClrExceptionsRow cE rowE chN =
    Returns tt (chN ++ netframework.perInstance netframework.NETCLRExceptions.Name
                         (netframework.exceptionsSamples cE) rowE)%list /\
  netframework.collectClrJITRow cJ rowJ chN =
    Returns tt (chN ++ netframework.perInstance netframework.NETCLRJit.Name
                         (netframework.jitSamples cJ) rowJ)%list.
Proof.
  intros c Hget sent cE cJ.
  split; [now apply collect_samples|].
  split; [|split; [apply collectClrExceptionsRow_samples | apply collectClrJITRow_samples]].
  intros p. unfold sent. split.
  - intros (m & Hin & Hl).
    apply in_flat_map in Hin as (t & Ht & Hm).
    apply filter_In in Ht as [Ht Hp].
    destruct (taskSamples_labels (New reE reA
                (Some {| TaskExclude := Some exc; TaskInclude := Some inc |})) t) as [Hall _].
    rewrite Forall_forall in Hall. specialize (Hall m Hm).
    rewrite Hall in Hl. injection Hl as <-.
    unfold passes in Hp. apply andb_true_iff in Hp as [Hi He].
    apply negb_true_iff in He. eauto.
  - intros ((t & Ht & <-) & Hi & He).
    destruct (taskSamples_labels (New reE reA
                (Some {| TaskExclude := Some exc; TaskInclude := Some inc |})) t)
      as [Hall (m & Hm)].
    exists m. split.
    + apply in_flat_map. exists t. split; [|exact Hm].
      apply filter_In. split; [exact Ht|]. unfold passes. now rewrite Hi, He.
    + rewrite Forall_forall in Hall. now apply Hall.
Qed.

End IncludeExclude.

(** C1 as stated fails for the CLR exceptions collector: it is not true
    that, for all include and exclude patterns, a row is sent exactly when
    include matches its name and exclude does not.  With an include
    pattern that matches nothing, the row of [w3wp] is sent all the same. *)
Lemma C1_counterexample :
  ~ (forall (inc exc : Regexp) row (ch : Chan),
       final (netframework.collectClrExceptionsRow
                (netframework.buildClrExceptions "windows" "netframework" "clrexceptions"
                   examples.noDescs) row ch) <> ch <->
       (matches inc (netframework.NETCLRExceptions.Name row) = true /\
        matches exc (netframework.NETCLRExceptions.Name row) = false)).
Proof.
  intros H.
  destruct (H (mkRegexp (fun _ => false)) (mkRegexp (fun _ => false))
              (examples.exceptionsRow "w3wp") []) as [Hsent _].
  destruct Hsent as [Hinc _]; [discriminate|]. discriminate Hinc.
Qed.

(** C1, at the example host with include [/Microsoft/...] and exclude
    matching the empty path only: the two tasks under [/Microsoft] give
    twelve samples, the task [/backup] none. *)
Lemma C1_witness :
  exists tasks w1,
    scheduled_task.getScheduledTasks examples.taskHost examples.emptyWorld
      = Returns (tasks, None) w1 /\
    List.length tasks = 3%nat /\
    List.length (scheduled_task.ch (final (scheduled_task.collect
      (fst (scheduled_task.Build "windows" (scheduled_task.New examples.reEmpty examples.reAny
         (Some {| scheduled_task.TaskExclude := Some examples.reEmpty;
                  scheduled_task.TaskInclude := Some examples.reMicrosoft |}))))
      examples.taskHost examples.emptyWorld))) = 12%nat.
Proof.
  eexists _, _. split; [vm_compute; reflexivity|]. split; [reflexivity|].
  rewrite (proj1 (C1_include_exclude_scheduled_task_only
             "windows" "netframework" "clrexceptions" "clrjit"
             examples.reEmpty examples.reAny examples.reMicrosoft examples.reEmpty
             examples.taskHost examples.emptyWorld _ _ examples.noDescs
             (examples.exceptionsRow "w3wp") (examples.jitRow "w3wp" 50 100) [] eq_refl)).
  vm_compute. reflexivity.
Defined.

(** C3, at a running task that has not run yet. *)
Lemma C3_witness :
  let c := fst (scheduled_task.Build "windows"
                  (scheduled_task.New examples.reEmpty examples.reAny None)) in
  scheduled_task.TaskInclude (scheduled_task.config c) = Some examples.reAny /\
  scheduled_task.TaskExclude (scheduled_task.config c) = Some examples.reEmpty /\
  scheduled_task.passes examples.reAny examples.reEmpty
    (scheduled_task.Path examples.runningTask) = true /\
  map value (scheduled_task.ch (final
    (scheduled_task.collectTask c examples.runningTask examples.emptyWorld)))
    = [zero; zero; zero; one; zero].
Proof.
  split; [reflexivity|]. split; [reflexivity|]. split; [reflexivity|].
  destruct (C3_running_state_and_has_not_run "windows" examples.reEmpty examples.reAny None
              examples.runningTask examples.emptyWorld examples.reAny examples.reEmpty
              eq_refl eq_refl eq_refl) as (dS & dL & dM & _ & _ & _ & Hrun & Hstate & Hnone & _).
  rewrite Hrun, (Hstate eq_refl), (Hnone eq_refl). reflexivity.
Defined.

(** C6, at the example tree: three tasks in four folders, eight calls. *)
Lemma C6_witness :
  scheduled_task.healthy examples.taskTree = true /\
  map scheduled_task.Path (scheduled_task.scheduledTasks (final
    (scheduled_task.fetchTasksRecursively examples.taskTree examples.emptyWorld)))
    = ["/backup"; "/Microsoft/scan"; "/Microsoft/Windows/defrag"] /\
  List.length (scheduled_task.calls (final
    (scheduled_task.fetchTasksRecursively examples.taskTree examples.emptyWorld))) = 8%nat.
Proof.
  split; [reflexivity|].
  rewrite (proj1 (C6_fetchTasksRecursively_visits_each_task_once
                    examples.taskTree examples.emptyWorld eq_refl)).
  split; vm_compute; reflexivity.
Defined.

(** ** vmware *)

Section VMware.

Import vmware.

Variable ns : string.
Variables MBToBytes MilliSecToSec : float64 -> float64.
Variable CounterType : Type.
Variable CounterTypeRaw : CounterType.
Variable InstancesTotal : list string.
Variable NewCollector :
  forall T : Type, CounterType -> string -> list string -> pdh.Collector T * error.

Lemma vm_emitAll_nil w : emitAll [] w = w.
Proof. destruct w. unfold emitAll. cbn. now rewrite app_nil_r. Qed.

Lemma vm_emitAll_app a b w : emitAll b (emitAll a w) = emitAll (a ++ b)%list w.
Proof. unfold emitAll. cbn. now rewrite app_assoc. Qed.

(** One emission, when the row can be read and the descriptor is set. *)
Lemma emit_sample {R} (d : Collector -> option Desc) vt (row0 : go World R) (v : R -> float64)
    (r : R) (w : World) :
  row0 w = Returns r w -> noLabels (d (self w)) = true ->
  emit d vt row0 v w = Returns tt (emitAll (sample (d (self w)) vt (v r)) w).
Proof.
  intros Hrow Hd. unfold emit, bind, get. rewrite Hrow.
  unfold noLabels in Hd. destruct (d (self w)) as [dd|]; [|discriminate].
  unfold MustNewConstMetric. cbn [List.length]. rewrite Nat.eqb_sym, Hd.
  reflexivity.
Qed.

(** One emission, when the slice is empty. *)
Lemma emit_panics {R} (d : Collector -> option Desc) vt (row0 : go World R) (v : R -> float64)
    msg (w : World) :
  row0 w = Panics msg w -> emit d vt row0 v w = Panics msg w.
Proof. intros Hrow. unfold emit, bind, get. now rewrite Hrow. Qed.

Lemma memory0_row w r rest :
  perfDataObjectMemory (self w) = r :: rest -> memory0 w = Returns r w.
Proof. intros H. unfold memory0, bind, get, index. now rewrite H. Qed.

Lemma cpu0_row w r rest :
  perfDataObjectCPU (self w) = r :: rest -> cpu0 w = Returns r w.
Proof. intros H. unfold cpu0, bind, get, index. now rewrite H. Qed.

Lemma hasDescs_all c :
  hasDescs c = true ->
  (noLabels (memActive c) = true /\ noLabels (memBallooned c) = true /\
   noLabels (memLimit c) = true /\ noLabels (memMapped c) = true /\
   noLabels (memOverhead c) = true /\ noLabels (memReservation c) = true /\
   noLabels (memShared c) = true /\ noLabels (memSharedSaved c) = true /\
   noLabels (memShares c) = true /\ noLabels (memSwapped c) = true /\
   noLabels (memTargetSize c) = true /\ noLabels (memUsed c) = true) /\
  (noLabels (cpuLimitMHz c) = true /\ noLabels (cpuReservationMHz c) = true /\
   noLabels (cpuShares c) = true /\ noLabels (cpuStolenTotal c) = true /\
   noLabels (cpuTimeTotal c) = true /\ noLabels (cpuEffectiveVMSpeedMHz c) = true /\
   noLabels (hostProcessorSpeedMHz c) = true).
Proof. unfold hasDescs. rewrite !andb_true_iff. tauto. Qed.

Ltac emit_step row0_row :=
  unfold bind at 1;
  erewrite emit_sample;
    [ cbv beta iota
    | eapply row0_row; cbn [self emitAll afterMemory afterCPU setMemory setCPU
                            perfDataObjectMemory perfDataObjectCPU]; reflexivity
    | cbn [self emitAll afterMemory afterCPU]; assumption ].

Lemma queryMemory_result w dst err :
  pdh.Collect (perfDataCollectorMemory (self w)) (perfDataObjectMemory (self w)) = (dst, err) ->
  queryMemory w = Returns err (afterMemory dst w).
Proof. intros H. unfold queryMemory, bind, get. now rewrite H. Qed.

Lemma queryCPU_result w dst err :
  pdh.Collect (perfDataCollectorCPU (self w)) (perfDataObjectCPU (self w)) = (dst, err) ->
  queryCPU w = Returns err (afterCPU dst w).
Proof. intros H. unfold queryCPU, bind, get. now rewrite H. Qed.

Lemma collectMem_error w dst e :
  pdh.Collect (perfDataCollectorMemory (self w)) (perfDataObjectMemory (self w)) = (dst, Some e) ->
  collectMem MBToBytes w =
  Returns (Some (Errorf "failed to collect VM Memory metrics: " e)) (afterMemory dst w).
Proof. intros H. unfold collectMem, bind. now rewrite (queryMemory_result _ _ _ H). Qed.

Lemma collectCpu_error w dst e :
  pdh.Collect (perfDataCollectorCPU (self w)) (perfDataObjectCPU (self w)) = (dst, Some e) ->
  collectCpu MilliSecToSec w =
  Returns (Some (Errorf "failed to collect VM CPU metrics: " e)) (afterCPU dst w).
Proof. intros H. unfold collectCpu, bind. now rewrite (queryCPU_result _ _ _ H). Qed.

Lemma collectMem_empty w :
  pdh.Collect (perfDataCollectorMemory (self w)) (perfDataObjectMemory (self w)) = ([], None) ->
  collectMem MBToBytes w = Panics "runtime error: index out of range" (afterMemory [] w).
Proof.
  intros H. unfold collectMem. unfold bind at 1. rewrite (queryMemory_result _ _ _ H).
  unfold bind at 1. now rewrite emit_panics with (msg := "runtime error: index out of range").
Qed.

Lemma collectCpu_empty w :
  pdh.Collect (perfDataCollectorCPU (self w)) (perfDataObjectCPU (self w)) = ([], None) ->
  collectCpu MilliSecToSec w = Panics "runtime error: index out of range" (afterCPU [] w).
Proof.
  intros H. unfold collectCpu. unfold bind at 1. rewrite (queryCPU_result _ _ _ H).
  unfold bind at 1. now rewrite emit_panics with (msg := "runtime error: index out of range").
Qed.

Lemma collectMem_rows w r rest :
  hasDescs (self w) = true ->
  pdh.Collect (perfDataCollectorMemory (self w)) (perfDataObjectMemory (self w))
    = (r :: rest, None) ->
  collectMem MBToBytes w =
  Returns None (emitAll (memSamples MBToBytes (self w) r) (afterMemory (r :: rest) w)).
Proof.
  intros Hd H. apply hasDescs_all in Hd as [(M1 & M2 & M3 & M4 & M5 & M6 & M7 & M8 & M9 & M10 & M11 & M12) _].
  unfold collectMem. unfold bind at 1. rewrite (queryMemory_result _ _ _ H).
  do 12 emit_step memory0_row.
  unfold ret. rewrite !vm_emitAll_app. reflexivity.
Qed.

Lemma collectCpu_rows w r rest :
  hasDescs (self w) = true ->
  pdh.Collect (perfDataCollectorCPU (self w)) (perfDataObjectCPU (self w))
    = (r :: rest, None) ->
  collectCpu MilliSecToSec w =
  Returns None (emitAll (cpuSamples MilliSecToSec (self w) r) (afterCPU (r :: rest) w)).
Proof.
  intros Hd H. apply hasDescs_all in Hd as [_ (C1 & C2 & C3 & C4 & C5 & C6 & C7)].
  unfold collectCpu. unfold bind at 1. rewrite (queryCPU_result _ _ _ H).
  do 7 emit_step cpu0_row.
  unfold ret. rewrite !vm_emitAll_app. reflexivity.
Qed.

Lemma memSamples_length c r :
  hasDescs c = true -> List.length (memSamples MBToBytes c r) = 12%nat.
Proof.
  intros Hd. apply hasDescs_all in Hd as [(M1 & M2 & M3 & M4 & M5 & M6 & M7 & M8 & M9 & M10 & M11 & M12) _].
  unfold memSamples, noLabels in *.
  destruct (memActive c), (memBallooned c), (memLimit c), (memMapped c), (memOverhead c),
    (memReservation c), (memShared c), (memSharedSaved c), (memShares c), (memSwapped c),
    (memTargetSize c), (memUsed c); try discriminate; reflexivity.
Qed.

Lemma cpuSamples_length c r :
  hasDescs c = true -> List.length (cpuSamples MilliSecToSec c r) = 7%nat.
Proof.
  intros Hd. apply hasDescs_all in Hd as [_ (C1 & C2 & C3 & C4 & C5 & C6 & C7)].
  unfold cpuSamples, noLabels in *.
  destruct (cpuLimitMHz c), (cpuReservationMHz c), (cpuShares c), (cpuStolenTotal c),
    (cpuTimeTotal c), (cpuEffectiveVMSpeedMHz c), (hostProcessorSpeedMHz c);
    try discriminate; reflexivity.
Qed.

End VMware.

Section VMwareClaims.

Import vmware.

Variable ns : string.
Variables MBToBytes MilliSecToSec : float64 -> float64.
Variable CounterType : Type.
Variable CounterTypeRaw : CounterType.
Variable InstancesTotal : list string.
Variable NewCollector :
  forall T : Type, CounterType -> string -> list string -> pdh.Collector T * error.

(** C4. [Build] creates both pdh collectors whatever the first creation
    returns.  When both creations fail it returns one error joining the
    two failures, each wrapped with the name of its counter object, so
    that the error is ([errors.Is]) each of the two; when one fails, an
    error joining that failure; when none fails, nil. *)
Theorem C4_build_joins_both_failures (c : Collector) pc pm errC errM :
  NewCollector perfDataCounterValuesCPU CounterTypeRaw "VM Processor" InstancesTotal = (pc, errC) ->
  NewCollector perfDataCounterValuesMemory CounterTypeRaw "VM Memory" [] = (pm, errM) ->
  let built := Build ns CounterType CounterTypeRaw InstancesTotal NewCollector c in
  perfDataCollectorCPU (fst built) = pc /\ perfDataCollectorMemory (fst built) = pm /\
  (forall e1 e2, errC = Some e1 -> errM = Some e2 ->
     snd built = Some (joinError [Errorf "failed to create VM Processor collector: " e1;
                                  Errorf "failed to create VM Memory collector: " e2]) /\
     (forall err, snd built = Some err -> Is err e1 = true /\ Is err e2 = true)) /\
  (forall e1, errC = Some e1 -> errM = None ->
     snd built = Some (joinError [Errorf "failed to create VM Processor collector: " e1])) /\
  (forall e2, errC = None -> errM = Some e2 ->
     snd built = Some (joinError [Errorf "failed to create VM Memory collector: " e2])) /\
  (errC = None -> errM = None -> snd built = None).
Proof.
  intros HC HM built. unfold built, Build. rewrite HC, HM.
  split; [reflexivity|]. split; [reflexivity|]. split; [|split; [|split]].
  - intros e1 e2 -> ->. split; [reflexivity|].
    intros err [= <-]. split.
    + eapply Is_joinError; [left; reflexivity|]. apply Is_Errorf, Is_refl.
    + eapply Is_joinError; [right; left; reflexivity|]. apply Is_Errorf, Is_refl.
  - intros e1 -> ->. reflexivity.
  - intros e2 -> ->. reflexivity.
  - intros -> ->. reflexivity.
Qed.


(** C10. [collectMem] and [collectCpu] read element 0 of the slice filled
    by the query without looking at its length.  After a query that
    succeeds with at least one row they send the samples of the first row
    and return nil; after a query that succeeds with no row they panic on
    the index, sending nothing and returning no error. *)
Theorem C10_first_row_read_unchecked (w : World) dstM dstC :
  hasDescs (self w) = true ->
  pdh.Collect (perfDataCollectorMemory (self w)) (perfDataObjectMemory (self w)) = (dstM, None) ->
  pdh.Collect (perfDataCollectorCPU (self w)) (perfDataObjectCPU (self w)) = (dstC, None) ->
  (dstM = [] ->
     collectMem MBToBytes w = Panics "runtime error: index out of range" (afterMemory [] w) /\
     returned (collectMem MBToBytes w) = None /\
     ch (final (collectMem MBToBytes w)) = ch w) /\
  (forall r rest, dstM = r :: rest ->
     collectMem MBToBytes w =
       Returns None (emitAll (memSamples MBToBytes (self w) r) (afterMemory dstM w)) /\
     List.length (memSamples MBToBytes (self w) r) = 12%nat) /\
  (dstC = [] ->
     collectCpu MilliSecToSec w = Panics "runtime error: index out of range" (afterCPU [] w) /\
     returned (collectCpu MilliSecToSec w) = None /\
     ch (final (collectCpu MilliSecToSec w)) = ch w) /\
  (forall r rest, dstC = r :: rest ->
     collectCpu MilliSecToSec w =
       Returns None (emitAll (cpuSamples MilliSecToSec (self w) r) (afterCPU dstC w)) /\
     List.length (cpuSamples MilliSecToSec (self w) r) = 7%nat).
Proof.
  intros Hd HM HC.
  split; [|split; [|split]].
  - intros ->. rewrite (collectMem_empty _ _ HM). repeat split.
  - intros r rest ->. split; [now apply collectMem_rows | now apply memSamples_length].
  - intros ->. rewrite (collectCpu_empty _ _ HC). repeat split.
  - intros r rest ->. split; [now apply collectCpu_rows | now apply cpuSamples_length].
Qed.

(** C5. [Collect] runs the CPU query and then the memory query whatever
    the CPU query returned.  When one query fails and the other succeeds
    with a row, the samples of the other are sent and the returned error
    joins the failure of the one; when both fail, nothing is sent and the
    returned error joins both failures, so that it is ([errors.Is]) each
    of them; when both succeed with a row, all samples are sent and nil
    is returned.  In each case both slices hold what the queries left. *)
Theorem C5_collect_attempts_both_queries (w : World) dstC errC dstM errM :
  hasDescs (self w) = true ->
  pdh.Collect (perfDataCollectorCPU (self w)) (perfDataObjectCPU (self w)) = (dstC, errC) ->
  pdh.Collect (perfDataCollectorMemory (self w)) (perfDataObjectMemory (self w)) = (dstM, errM) ->
  let run := Collect MBToBytes MilliSecToSec w in
  let queried := afterMemory dstM (afterCPU dstC w) in
  (forall e1 r rest, errC = Some e1 -> errM = None -> dstM = r :: rest ->
     run = Returns
             (Some (joinError [Errorf "failed collecting vmware cpu metrics: "
                                 (Errorf "failed to collect VM CPU metrics: " e1)]))
             (emitAll (memSamples MBToBytes (self w) r) queried) /\
     List.length (memSamples MBToBytes (self w) r) = 12%nat /\
     (forall err, returned run = Some (Some err) -> Is err e1 = true)) /\
  (forall e2 r rest, errC = None -> dstC = r :: rest -> errM = Some e2 ->
     run = Returns
             (Some (joinError [Errorf "failed collecting vmware memory metrics: "
                                 (Errorf "failed to collect VM Memory metrics: " e2)]))
             (emitAll (cpuSamples MilliSecToSec (self w) r) queried) /\
     List.length (cpuSamples MilliSecToSec (self w) r) = 7%nat /\
     (forall err, returned run = Some (Some err) -> Is err e2 = true)) /\
  (forall e1 e2, errC = Some e1 -> errM = Some e2 ->
     run = Returns
             (Some (joinError [Errorf "failed collecting vmware cpu metrics: "
                                 (Errorf "failed to collect VM CPU metrics: " e1);
                               Errorf "failed collecting vmware memory metrics: "
                                 (Errorf "failed to collect VM Memory metrics: " e2)]))
             queried /\
     (forall err, returned run = Some (Some err) -> Is err e1 = true /\ Is err e2 = true)) /\
  (forall rc restc rm restm, errC = None -> dstC = rc :: restc ->
     errM = None -> dstM = rm :: restm ->
     run = Returns None
             (emitAll (cpuSamples MilliSecToSec (self w) rc ++ memSamples MBToBytes (self w) rm)
                queried)).
Proof.
  intros Hd HC HM run queried. subst run queried.
  split; [|split; [|split]].
  - intros e1 r rest -> -> ->.
    match goal with |- ?lhs = ?rhs /\ _ => assert (Hrun : lhs = rhs) end.
    { unfold Collect. unfold bind at 1. rewrite (collectCpu_error _ _ _ _ HC).
      unfold bind at 1. rewrite (collectMem_rows MBToBytes (afterCPU dstC w) r rest Hd HM).
      reflexivity. }
    rewrite Hrun. split; [reflexivity|]. split; [now apply memSamples_length|].
    intros err [= <-].
    eapply Is_joinError; [left; reflexivity|]. apply Is_Errorf, Is_Errorf, Is_refl.
  - intros e2 r rest -> -> ->.
    match goal with |- ?lhs = ?rhs /\ _ => assert (Hrun : lhs = rhs) end.
    { unfold Collect. unfold bind at 1. rewrite (collectCpu_rows MilliSecToSec w r rest Hd HC).
      unfold bind at 1.
      rewrite (collectMem_error MBToBytes
                 (emitAll (cpuSamples MilliSecToSec (self w) r) (afterCPU (r :: rest) w))
                 dstM e2 HM).
      reflexivity. }
    rewrite Hrun. split; [reflexivity|]. split; [now apply cpuSamples_length|].
    intros err [= <-].
    eapply Is_joinError; [left; reflexivity|]. apply Is_Errorf, Is_Errorf, Is_refl.
  - intros e1 e2 -> ->.
    match goal with |- ?lhs = ?rhs /\ _ => assert (Hrun : lhs = rhs) end.
    { unfold Collect. unfold bind at 1. rewrite (collectCpu_error _ _ _ _ HC).
      unfold bind at 1. rewrite (collectMem_error MBToBytes (afterCPU dstC w) dstM e2 HM).
      reflexivity. }
    rewrite Hrun. split; [reflexivity|].
    intros err [= <-]. split.
    + eapply Is_joinError; [left; reflexivity|]. apply Is_Errorf, Is_Errorf, Is_refl.
    + eapply Is_joinError; [right; left; reflexivity|]. apply Is_Errorf, Is_Errorf, Is_refl.
  - intros rc restc rm restm -> -> -> ->.
    unfold Collect. unfold bind at 1. rewrite (collectCpu_rows MilliSecToSec w rc restc Hd HC).
    unfold bind at 1.
    rewrite (collectMem_rows MBToBytes
               (emitAll (cpuSamples MilliSecToSec (self w) rc) (afterCPU (rc :: restc) w))
               rm restm Hd HM).
    unfold ret, emitAll, afterMemory, afterCPU. cbn [self ch]. now rewrite <- app_assoc.
Qed.

End VMwareClaims.

(** C4, on a host where neither counter object exists. *)
Lemma C4_witness :
  let built := vmware.Build "windows" unit tt ["_Total"] examples.noCounters
                 (examples.vmCollector (examples.failing "") (examples.failing "")) in
  examples.noCounters vmware.perfDataCounterValuesCPU tt "VM Processor" ["_Total"] =
    (pdh.mkCollector (fun dst => (dst, Some (errorString "collector not initialized"))),
     Some (errorString "counter object not found: VM Processor")) /\
  examples.noCounters vmware.perfDataCounterValuesMemory tt "VM Memory" [] =
    (pdh.mkCollector (fun dst => (dst, Some (errorString "collector not initialized"))),
     Some (errorString "counter object not found: VM Memory")) /\
  snd built = Some (joinError
    [Errorf "failed to create VM Processor collector: "
       (errorString "counter object not found: VM Processor");
     Errorf "failed to create VM Memory collector: "
       (errorString "counter object not found: VM Memory")]).
Proof.
  split; [reflexivity|]. split; [reflexivity|].
  exact (proj1 (proj1 (proj2 (proj2
    (C4_build_joins_both_failures "windows" unit tt ["_Total"] examples.noCounters
       (examples.vmCollector (examples.failing "") (examples.failing ""))
       _ _ _ _ eq_refl eq_refl))) _ _ eq_refl eq_refl)).
Defined.

(** C5, with a failing CPU query and a memory query answering one row. *)
Lemma C5_witness :
  let w := examples.vmWorld (examples.failing "pdh: no data") (examples.answering [examples.memRow]) in
  vmware.hasDescs (vmware.self w) = true /\
  pdh.Collect (vmware.perfDataCollectorCPU (vmware.self w)) (vmware.perfDataObjectCPU (vmware.self w))
    = ([], Some (errorString "pdh: no data")) /\
  pdh.Collect (vmware.perfDataCollectorMemory (vmware.self w))
    (vmware.perfDataObjectMemory (vmware.self w)) = ([examples.memRow], None) /\
  List.length (vmware.ch (final (vmware.Collect examples.mbToBytes examples.milliSecToSec w)))
    = 12%nat.
Proof.
  split; [reflexivity|]. split; [reflexivity|]. split; [reflexivity|].
  rewrite (proj1 (proj1
    (C5_collect_attempts_both_queries examples.mbToBytes examples.milliSecToSec
       (examples.vmWorld (examples.failing "pdh: no data") (examples.answering [examples.memRow]))
       _ _ _ _ eq_refl eq_refl eq_refl) _ _ _ eq_refl eq_refl eq_refl)).
  reflexivity.
Defined.

(** C10, with both queries succeeding without a row. *)
Lemma C10_witness :
  let w := examples.vmWorld (examples.answering []) (examples.answering []) in
  vmware.hasDescs (vmware.self w) = true /\
  pdh.Collect (vmware.perfDataCollectorMemory (vmware.self w))
    (vmware.perfDataObjectMemory (vmware.self w)) = ([], None) /\
  pdh.Collect (vmware.perfDataCollectorCPU (vmware.self w)) (vmware.perfDataObjectCPU (vmware.self w))
    = ([], None) /\
  panicked (vmware.collectMem examples.mbToBytes w) = true.
Proof.
  split; [reflexivity|]. split; [reflexivity|]. split; [reflexivity|].
  rewrite (proj1 (proj1
    (C10_first_row_read_unchecked examples.mbToBytes examples.milliSecToSec
       (examples.vmWorld (examples.answering []) (examples.answering []))
       _ _ eq_refl eq_refl eq_refl) eq_refl)).
  reflexivity.
Defined.

(** * Further properties of the collectors *)

(** ** scheduled_task: traversal with failing calls *)

Section ScheduledTaskTraversal.

Import scheduled_task.

Lemma ForEach_parseTask_prefix tasks :
  exists err done rest,
    tasks = (done ++ rest)%list /\
    (err = None <-> forallb parses tasks = true) /\
    (err = None -> rest = []) /\
    forall w,
      ForEach (fun task =>
        let (parsedTask, err) := parseTask task in
        match err with
        | Some e => ret (Some e)
        | None => appendTask parsedTask ;; ret None
        end) tasks w = Returns err (fetched done [] w).
Proof.
  induction tasks as [|t tasks (err & done & rest & Hsplit & Hiff & Hall & Hrun)].
  - exists None, [], []. repeat split; try reflexivity.
    intros w. cbn. unfold ret. now rewrite fetched_nil.
  - destruct (parseTask t) as [pt [e|]] eqn:E.
    + exists (Some e), [], (t :: tasks). split; [reflexivity|]. split; [|split].
      * split; [discriminate|]. cbn [forallb]. unfold parses. rewrite E. discriminate.
      * discriminate.
      * intros w. cbn [ForEach]. unfold bind. rewrite E. unfold ret. now rewrite fetched_nil.
    + exists err, (t :: done), rest. split; [cbn; now rewrite Hsplit|]. split; [|split].
      * cbn [forallb]. unfold parses at 1. rewrite E. cbn [snd andb]. exact Hiff.
      * exact Hall.
      * intros w. cbn [ForEach]. unfold bind at 1. rewrite E.
        unfold bind, appendTask, modify, ret. rewrite Hrun.
        f_equal. unfold fetched. cbn. rewrite E. cbn. now rewrite <- !app_assoc.
Qed.

Lemma ForEach_folders_prefix (subFolders : list Folder) :
  Forall stopsEarly subFolders ->
  exists err doneT doneC,
    (exists restT, flat_map folderTasks subFolders = (doneT ++ restT)%list) /\
    (exists restC, flat_map folderCalls subFolders = (doneC ++ restC)%list) /\
    (err = None <-> forallb healthy subFolders = true) /\
    (err = None -> doneT = flat_map folderTasks subFolders /\
                   doneC = flat_map folderCalls subFolders) /\
    forall w, ForEach (fun subFolder => fetchTasksRecursively subFolder) subFolders w =
              Returns err (fetched doneT doneC w).
Proof.
  induction 1 as [|sub rest Hsub _ (err & dT & dC & (rT & HT) & (rC & HC) & Hiff & Hall & Hrun)].
  - exists None, [], []. split; [now exists []|]. split; [now exists []|].
    split; [now split|]. split; [now split|].
    intros w. cbn. unfold ret. now rewrite fetched_nil.
  - destruct Hsub as (e1 & dT1 & dC1 & (rT1 & HT1) & (rC1 & HC1) & Hiff1 & Hall1 & Hrun1).
    destruct e1 as [e|].
    + exists (Some e), dT1, dC1.
      split; [exists (rT1 ++ flat_map folderTasks rest)%list; cbn [flat_map];
              now rewrite HT1, app_assoc|].
      split; [exists (rC1 ++ flat_map folderCalls rest)%list; cbn [flat_map];
              now rewrite HC1, app_assoc|].
      split; [|split].
      * split; [discriminate|]. cbn [forallb]. intros Hh.
        apply andb_true_iff in Hh as [Hh _]. apply Hiff1 in Hh. discriminate.
      * discriminate.
      * intros w. cbn [ForEach]. unfold bind. now rewrite Hrun1.
    + destruct (Hall1 eq_refl) as [-> ->].
      exists err, (folderTasks sub ++ dT)%list, (folderCalls sub ++ dC)%list.
      split; [exists rT; cbn [flat_map]; now rewrite HT, app_assoc|].
      split; [exists rC; cbn [flat_map]; now rewrite HC, app_assoc|].
      split; [|split].
      * cbn [forallb]. rewrite (proj1 Hiff1 eq_refl). cbn [andb]. exact Hiff.
      * intros He. destruct (Hall He) as [-> ->]. now split.
      * intros w. cbn [ForEach]. unfold bind. rewrite Hrun1, Hrun, fetched_app. reflexivity.
Qed.

Lemma fetchTasksRecursively_stopsEarly folder : stopsEarly folder.
Proof.
  induction folder as [path getTasks getFolders IH] using Folder_nested_ind.
  unfold stopsEarly. cbn [folderTasks folderCalls healthy].
  destruct getTasks as [tasks|e].
  - destruct (ForEach_parseTask_prefix tasks) as (err & done & rest & -> & Hiff & Hall & Hrun).
    assert (Hin : forall w, fetchTasksInFolder (mkFolder path (inl (done ++ rest)%list) getFolders) w
                            = Returns err (fetched done [CallGetTasks path] w)).
    { intros w. cbn [fetchTasksInFolder]. unfold bind.
      rewrite called_fetched, Hrun, fetched_app. reflexivity. }
    destruct err as [e|].
    + exists (Some e), done, [CallGetTasks path].
      split; [eexists; now rewrite <- app_assoc|]. split; [now eexists|].
      split; [|split].
      * split; [discriminate|]. intros Hh. apply andb_true_iff in Hh as [Hh _].
        apply Hiff in Hh. discriminate.
      * discriminate.
      * intros w. cbn [fetchTasksRecursively]. unfold bind at 1. rewrite Hin. reflexivity.
    + rewrite (Hall eq_refl), app_nil_r in *. rewrite (proj1 Hiff eq_refl). cbn [andb].
      destruct getFolders as [subFolders|e].
      * destruct (ForEach_folders_prefix subFolders IH)
          as (err & dT & dC & (rT & HT) & (rC & HC) & Hiff' & Hall' & Hrun').
        exists err, (done ++ dT)%list, (CallGetTasks path :: CallGetFolders path :: dC).
        split; [exists rT; now rewrite HT, app_assoc|].
        split; [exists rC; now rewrite HC|].
        split; [exact Hiff'|]. split.
        -- intros He. destruct (Hall' He) as [-> ->]. now split.
        -- intros w. cbn [fetchTasksRecursively]. unfold bind at 1. rewrite Hin.
           unfold bind. rewrite called_fetched, Hrun', !fetched_app. reflexivity.
      * exists (Some e), done, [CallGetTasks path; CallGetFolders path].
        split; [exists []; reflexivity|]. split; [exists []; reflexivity|].
        split; [split; discriminate|]. split; [discriminate|].
        intros w. cbn [fetchTasksRecursively]. unfold bind at 1. rewrite Hin.
        unfold bind. rewrite called_fetched, fetched_app, app_nil_r. reflexivity.
  - exists (Some e), [], [CallGetTasks path].
    split; [now eexists|]. split; [now eexists|].
    split; [split; discriminate|]. split; [discriminate|].
    intros w. cbn [fetchTasksRecursively fetchTasksInFolder]. unfold bind.
    rewrite called_fetched. reflexivity.
Qed.

End ScheduledTaskTraversal.

Section ScheduledTaskFetch.

Import scheduled_task.

Lemma listed_nil tasks w :
  {| ch := ch w; scheduledTasks := tasks; calls := calls w |} = listed tasks [] w.
Proof. unfold listed. now rewrite app_nil_r. Qed.

(** [getScheduledTasks] either panics in [MustQueryInterface], before any
    folder call, or returns; what it returns, the slice it leaves and the
    calls it makes depend on the host only, and it sends nothing. *)
Lemma getScheduledTasks_shape (h : Host) :
  (exists r tasks calls', forall w, getScheduledTasks h w = Returns r (listed tasks calls' w)) \/
  (forall w, getScheduledTasks h w = Panics "MustQueryInterface" (listed [] [] w)).
Proof.
  destruct h as [ci cf [nn cerr] qi cn gf].
  unfold getScheduledTasks, bind, resetTasks, modify, ret, panic.
  cbn [CoInitializeEx ClassIDFrom CreateInstance QueryInterface Connect GetFolder ch calls].
  match goal with
  | |- context [match ?refused with Some err => fun s => Returns ([], Some err) s | None => _ end] =>
      destruct refused as [err|]
  end.
  { left. eexists _, [], []. intros w. now rewrite listed_nil. }
  destruct cf as [err|].
  { left. eexists _, [], []. intros w. now rewrite listed_nil. }
  destruct cerr as [err|].
  { left. eexists _, [], []. intros w. destruct nn; now rewrite listed_nil. }
  destruct nn.
  2: { left. eexists _, [], []. intros w. now rewrite listed_nil. }
  destruct qi as [err|].
  { right. intros w. now rewrite listed_nil. }
  destruct cn as [err|].
  { left. eexists _, [], []. intros w. now rewrite listed_nil. }
  destruct gf as [root|err].
  2: { left. eexists _, [], []. intros w. now rewrite listed_nil. }
  destruct (fetchTasksRecursively_stopsEarly root) as (err & dT & dC & _ & _ & _ & _ & Hrun).
  left. exists (map (fun t => fst (parseTask t)) dT, err), (map (fun t => fst (parseTask t)) dT), dC.
  intros w. rewrite Hrun. reflexivity.
Qed.

End ScheduledTaskFetch.

Section ScheduledTaskMore.

Import scheduled_task.

Variable ns : string.
Variables reE reA : Regexp.


(** X2. On a host where every opening call succeeds and no call of the
    folder tree fails, [getScheduledTasks] returns every task of the tree,
    in traversal order, with a nil error; the slice starts empty whatever
    an earlier run left, and nothing is sent. *)
Theorem X2_getScheduledTasks_lists_every_task (h : Host) root (w : World) :
  CoInitializeEx h = None -> ClassIDFrom h = None -> CreateInstance h = (true, None) ->
  QueryInterface h = None -> Connect h = None -> GetFolder h = inl root ->
  healthy root = true ->
  getScheduledTasks h w =
    Returns (map (fun t => fst (parseTask t)) (folderTasks root), None)
            (listed (map (fun t => fst (parseTask t)) (folderTasks root)) (folderCalls root) w).
Proof.
  intros H1 H2 H3 H4 H5 H6 Hh. unfold getScheduledTasks.
  rewrite H1, H2, H3, H4, H5, H6. unfold bind, resetTasks, modify.
  rewrite (fetchTasksRecursively_healthy root Hh). reflexivity.
Qed.

(** X3. [getScheduledTasks] gives up on a [CoInitializeEx] error only when
    it is (or wraps) an OLE error whose code is neither S_OK nor S_FALSE:
    it then returns that error and no task, without any folder call.  An
    OLE error with code S_FALSE, and an error that is no OLE error, are
    passed over: the run is the one of a host without that error. *)
Theorem X3_CoInitializeEx_errors (err : Error) cf cr qi cn gf (w : World) :
  let h := mkHost (Some err) cf cr qi cn gf in
  let h0 := mkHost None cf cr qi cn gf in
  (forall code, AsOleError err = Some code -> code <> S_OK -> code <> S_FALSE ->
     getScheduledTasks h w = Returns ([], Some err) (listed [] [] w)) /\
  (AsOleError err = Some S_FALSE -> getScheduledTasks h w = getScheduledTasks h0 w) /\
  (AsOleError err = None -> getScheduledTasks h w = getScheduledTasks h0 w).
Proof.
  cbv zeta. unfold getScheduledTasks. cbn [CoInitializeEx]. split; [|split].
  - intros code -> H0 H1.
    destruct (Z.eqb_spec code S_OK); [contradiction|].
    destruct (Z.eqb_spec code S_FALSE); [contradiction|].
    cbn [negb andb]. unfold bind, resetTasks, modify, ret. now rewrite listed_nil.
  - intros ->. reflexivity.
  - intros ->. reflexivity.
Qed.

(** X4. When [CreateInstance] gives neither an object nor an error,
    [collect] reports nothing: it returns nil and sends no sample, and no
    folder is looked at. *)
Theorem X4_collect_silent_without_scheduler (c : Collector) (h : Host) (w : World) :
  CoInitializeEx h = None -> ClassIDFrom h = None -> CreateInstance h = (false, None) ->
  collect c h w = Returns None (listed [] [] w).
Proof.
  intros H1 H2 H3. unfold collect, getScheduledTasks. rewrite H1, H2, H3.
  unfold bind, resetTasks, modify, ret. cbn [forRange]. unfold ret. now rewrite listed_nil.
Qed.

(** X5. When [getScheduledTasks] returns an error, [collect] sends no
    sample, also for the tasks listed before the failure, and returns the
    error wrapped as "get scheduled tasks: ...", which still is
    ([errors.Is]) the error returned. *)
Theorem X5_collect_wraps_fetch_error (c : Collector) (h : Host) (w : World) tasks e :
  returned (getScheduledTasks h w) = Some (tasks, Some e) ->
  returned (collect c h w) = Some (Some (Errorf "get scheduled tasks: " e)) /\
  ch (final (collect c h w)) = ch w /\
  Is (Errorf "get scheduled tasks: " e) e = true.
Proof.
  intros Hret. split; [|split; [|apply Is_Errorf, Is_refl]].
  - unfold collect, bind. destruct (getScheduledTasks h w) as [r s|msg s]; [|discriminate].
    cbn in Hret. injection Hret as ->. reflexivity.
  - destruct (getScheduledTasks_shape h) as [(r & T & C & Hrun)|Hrun].
    + unfold collect, bind. rewrite Hrun in *. cbn in Hret. injection Hret as ->. reflexivity.
    + rewrite Hrun in Hret. discriminate.
Qed.

(** X6. [collect] keeps no state between runs: run again on the same host
    from the world the first run left, a built collector returns the same
    error and sends the same samples once more. *)
Theorem X6_collect_twice_sends_the_same (c0 : Collector) inc exc (h : Host) (w : World) :
  TaskInclude (config c0) = Some inc -> TaskExclude (config c0) = Some exc ->
  let c := fst (Build ns c0) in
  let first := collect c h w in
  let second := collect c h (final first) in
  returned second = returned first /\
  exists sent,
    ch (final first) = (ch w ++ sent)%list /\
    ch (final second) = (ch (final first) ++ sent)%list.
Proof.
  intros Hi He c first second. subst first second.
  destruct (getScheduledTasks_shape h) as [([T [e|]] & T' & C & Hrun)|Hrun].
  - assert (Hc : forall w0, collect c h w0 =
                            Returns (Some (Errorf "get scheduled tasks: " e)) (listed T' C w0)).
    { intros w0. unfold collect, bind. now rewrite Hrun. }
    rewrite !Hc. split; [reflexivity|]. exists []. cbn. now rewrite !app_nil_r.
  - rewrite !(collect_samples ns c0 inc exc h _ _ T Hi He (Hrun _)).
    split; [reflexivity|]. eexists. split; reflexivity.
  - assert (Hc : forall w0, collect c h w0 = Panics "MustQueryInterface" (listed [] [] w0)).
    { intros w0. unfold collect, bind. now rewrite Hrun. }
    rewrite !Hc. split; [reflexivity|]. exists []. cbn. now rewrite !app_nil_r.
Qed.

End ScheduledTaskMore.

Section ScheduledTaskParse.

Import scheduled_task.

Variable ns : string.
Variables reE reA : Regexp.

Lemma ReplaceAll1_no_old (s : string) (old new : ascii) :
  old <> new -> ~ In old (list_ascii_of_string (strings.ReplaceAll1 s old new)).
Proof.
  intros Hne. induction s as [|c s IH]; cbn; [tauto|].
  intros [H|H]; [|now apply IH].
  destruct (Ascii.eqb_spec c old); congruence.
Qed.

Lemma ReplaceAll1_length (s : string) (old new : ascii) :
  String.length (strings.ReplaceAll1 s old new) = String.length s.
Proof. induction s; cbn; congruence. Qed.

(** X7. The path of a parsed task holds no backslash: [parseTask] turns
    each one into a slash, leaving the length of the path as it was. *)
Theorem X7_parseTask_path_has_no_backslash (task : TaskObject) :
  ~ In "\"%char (list_ascii_of_string (Path (fst (parseTask task)))) /\
  (forall v, GetProperty task "Path" = inl v -> snd (parseTask task) = None ->
     String.length (Path (fst (parseTask task))) = String.length (ToString v)).
Proof.
  unfold parseTask.
  destruct (GetProperty task "Name"); [|split; [cbn; tauto | discriminate]].
  destruct (GetProperty task "Path") as [vp|]; [|split; [cbn; tauto | discriminate]].
  destruct (GetProperty task "Enabled"); [|split; [cbn; tauto | discriminate]].
  destruct (GetProperty task "State"); [|split; [cbn; tauto | discriminate]].
  destruct (GetProperty task "NumberOfMissedRuns"); [|split; [cbn; tauto | discriminate]].
  destruct (GetProperty task "LastTaskResult"); [|split; [cbn; tauto | discriminate]].
  cbn [fst snd Path]. split.
  - apply ReplaceAll1_no_old. discriminate.
  - intros pathVar [= <-] _. apply ReplaceAll1_length.
Qed.

Ltac unreadable :=
  split;
  [ split; [discriminate|]; intros H;
    repeat match goal with
           | H : Forall _ (_ :: _) |- _ => inversion_clear H
           | H : exists _, _ |- _ => destruct H
           end; congruence
  | intros e0 [= <-]; split; [reflexivity|];
    repeat first [ apply Exists_cons_hd; assumption | apply Exists_cons_tl ] ].

(** X8. [parseTask] succeeds exactly when all six properties can be read.
    When it fails it returns the zero task, and its error is the one of a
    property that could not be read. *)
Theorem X8_parseTask_all_or_nothing (task : TaskObject) :
  (snd (parseTask task) = None <->
   Forall (fun p => exists v, GetProperty task p = inl v) taskProperties) /\
  (forall e, snd (parseTask task) = Some e ->
     fst (parseTask task) = zeroTask /\
     Exists (fun p => GetProperty task p = inr e) taskProperties).
Proof.
  unfold parseTask, taskProperties.
  destruct (GetProperty task "Name") eqn:E1; [|unreadable].
  destruct (GetProperty task "Path") eqn:E2; [|unreadable].
  destruct (GetProperty task "Enabled") eqn:E3; [|unreadable].
  destruct (GetProperty task "State") eqn:E4; [|unreadable].
  destruct (GetProperty task "NumberOfMissedRuns") eqn:E5; [|unreadable].
  destruct (GetProperty task "LastTaskResult") eqn:E6; [|unreadable].
  split; [|discriminate].
  split; [|reflexivity]. intros _. repeat constructor; eauto.
Qed.

(** X9. The five state samples of a task: for each of the five known
    states exactly the sample of that state has value 1; for any other
    state value all five samples have value 0. *)
Theorem X9_state_samples_one_hot (c0 : Collector) (task : ScheduledTask) :
  let c := fst (Build ns c0) in
  let l := labelled (stateSamples c task) in
  (State task = TASK_STATE_UNKNOWN ->
   l = [("disabled", zero); ("queued", zero); ("ready", zero); ("running", zero); ("unknown", one)]) /\
  (State task = TASK_STATE_DISABLED ->
   l = [("disabled", one); ("queued", zero); ("ready", zero); ("running", zero); ("unknown", zero)]) /\
  (State task = TASK_STATE_QUEUED ->
   l = [("disabled", zero); ("queued", one); ("ready", zero); ("running", zero); ("unknown", zero)]) /\
  (State task = TASK_STATE_READY ->
   l = [("disabled", zero); ("queued", zero); ("ready", one); ("running", zero); ("unknown", zero)]) /\
  (State task = TASK_STATE_RUNNING ->
   l = [("disabled", zero); ("queued", zero); ("ready", zero); ("running", one); ("unknown", zero)]) /\
  (State task < 0 \/ 4 < State task ->
   l = [("disabled", zero); ("queued", zero); ("ready", zero); ("running", zero); ("unknown", zero)]).
Proof.
  cbv zeta. unfold stateSamples.
  repeat split; try (intros ->; reflexivity).
  intros Hout. unfold TaskState_String.
  destruct (Z.eqb_spec (State task) TASK_STATE_UNKNOWN); [unfold TASK_STATE_UNKNOWN in *; lia|].
  destruct (Z.eqb_spec (State task) TASK_STATE_DISABLED); [unfold TASK_STATE_DISABLED in *; lia|].
  destruct (Z.eqb_spec (State task) TASK_STATE_QUEUED); [unfold TASK_STATE_QUEUED in *; lia|].
  destruct (Z.eqb_spec (State task) TASK_STATE_READY); [unfold TASK_STATE_READY in *; lia|].
  destruct (Z.eqb_spec (State task) TASK_STATE_RUNNING); [unfold TASK_STATE_RUNNING in *; lia|].
  reflexivity.
Qed.

(** X10. A collector made by [New] and [Build] has both patterns set: a
    pattern of the configuration is kept, a missing one (or a missing
    configuration) is replaced by the default.  Its task loop never
    panics, and sends for a task no sample when the task is filtered out,
    five when it has not run yet, seven otherwise. *)
Theorem X10_new_collector_never_panics (cfg : option Config) :
  let c := fst (Build ns (New reE reA cfg)) in
  let inc := match cfg with
             | Some {| TaskInclude := Some re |} => re
             | _ => reA
             end in
  let exc := match cfg with
             | Some {| TaskExclude := Some re |} => re
             | _ => reE
             end in
  TaskInclude (config c) = Some inc /\ TaskExclude (config c) = Some exc /\
  snd (Build ns (New reE reA cfg)) = None /\
  forall task w,
    returned (collectTask c task w) = Some tt /\
    List.length (ch (final (collectTask c task w))) =
      (List.length (ch w) +
       (if passes inc exc (Path task)
        then if (LastTaskResult task =? SCHED_S_TASK_HAS_NOT_RUN)%Z then 5 else 7
        else 0))%nat.
Proof.
  cbv zeta.
  assert (Hi : TaskInclude (config (New reE reA cfg)) =
               Some match cfg with Some {| TaskInclude := Some re |} => re | _ => reA end)
    by (destruct cfg as [[[?|] [?|]]|]; reflexivity).
  assert (He : TaskExclude (config (New reE reA cfg)) =
               Some match cfg with Some {| TaskExclude := Some re |} => re | _ => reE end)
    by (destruct cfg as [[[?|] [?|]]|]; reflexivity).
  split; [exact Hi|]. split; [exact He|]. split; [reflexivity|].
  intros task w.
  rewrite (collectTask_samples ns (New reE reA cfg) _ _ task w Hi He).
  split; [reflexivity|].
  cbn [final]. unfold emitAll. cbn [ch]. rewrite length_app. f_equal.
  destruct (passes _ _ (Path task)); [|reflexivity].
  unfold taskSamples, resultSamples. rewrite length_app.
  destruct (LastTaskResult task =? SCHED_S_TASK_HAS_NOT_RUN); reflexivity.
Qed.

End ScheduledTaskParse.

(** ** netframework: failing queries, counts, building *)

Section NetFrameworkMore.

Import netframework NETCLRExceptions NETCLRJit.

Variables ns name ce cj : string.

(** X11. When the WMI query fails, the CLR exceptions and CLR JIT
    collectors send nothing, whatever rows the query left in [dst] and
    whether or not the descriptors are built, and return the error wrapped
    as "WMI query failed: ...", which still is ([errors.Is]) the query's
    error. *)
Theorem X11_clr_query_error (c : netframework.Collector) dstE dstJ eE eJ (ch : Chan) :
  Query_NETCLRExceptions (miSession c) = (dstE, Some eE) ->
  Query_NETCLRJit (miSession c) = (dstJ, Some eJ) ->
  collectClrExceptions c ch = Returns (Some (Errorf "WMI query failed: " eE)) ch /\
  collectClrJIT c ch = Returns (Some (Errorf "WMI query failed: " eJ)) ch /\
  Is (Errorf "WMI query failed: " eE) eE = true /\
  Is (Errorf "WMI query failed: " eJ) eJ = true.
Proof.
  intros HE HJ. unfold collectClrExceptions, collectClrJIT. rewrite HE, HJ.
  repeat split; apply Is_Errorf, Is_refl.
Qed.

Lemma perInstance_instances {R} (nm : R -> string) (f : R -> list Metric) (rows : list R) :
  flat_map (perInstance nm f) rows = flat_map f (instances nm rows).
Proof.
  unfold perInstance, instances. induction rows as [|r rows IH]; [reflexivity|].
  cbn [flat_map filter]. destruct (String.eqb (nm r) "_Global_"); cbn [negb flat_map];
    now rewrite IH.
Qed.

Lemma length_flat_map_const {A B} (f : A -> list B) (n : nat) (l : list A) :
  (forall x, List.length (f x) = n) -> List.length (flat_map f l) = (n * List.length l)%nat.
Proof.
  intros Hf. induction l as [|x l IH]; cbn [flat_map List.length]; [lia|].
  rewrite length_app, Hf, IH. lia.
Qed.

(** X12. After a successful query the built CLR collectors send four
    samples for each row that is not the aggregate one, in the order of
    the rows, and return nil; the process labels sent are the names of
    those rows, each four times. *)
Theorem X12_clr_four_samples_per_instance (c : netframework.Collector) dstE dstJ (ch : Chan) :
  Query_NETCLRExceptions (miSession c) = (dstE, None) ->
  Query_NETCLRJit (miSession c) = (dstJ, None) ->
  let runE := collectClrExceptions (buildClrExceptions ns name ce c) ch in
  let runJ := collectClrJIT (buildClrJIT ns name cj c) ch in
  returned runE = Some None /\ returned runJ = Some None /\
  List.length (final runE) =
    (List.length ch + 4 * List.length (instances NETCLRExceptions.Name dstE))%nat /\
  List.length (final runJ) =
    (List.length ch + 4 * List.length (instances NETCLRJit.Name dstJ))%nat /\
  map labelValues (skipn (List.length ch) (final runE)) =
    flat_map (fun row => let l := [NETCLRExceptions.Name row] in [l; l; l; l])
             (instances NETCLRExceptions.Name dstE) /\
  map labelValues (skipn (List.length ch) (final runJ)) =
    flat_map (fun row => let l := [NETCLRJit.Name row] in [l; l; l; l])
             (instances NETCLRJit.Name dstJ).
Proof.
  intros HE HJ runE runJ. subst runE runJ.
  rewrite (collectClrExceptions_samples ns name ce c dstE ch HE).
  rewrite (collectClrJIT_samples ns name cj c dstJ ch HJ).
  rewrite !perInstance_instances. cbn [returned final].
  split; [reflexivity|]. split; [reflexivity|].
  rewrite !length_app, !skipn_app, !Nat.sub_diag, !skipn_all. cbn [skipn app].
  split; [f_equal; now apply length_flat_map_const|].
  split; [f_equal; now apply length_flat_map_const|].
  split.
  - induction (instances NETCLRExceptions.Name dstE) as [|r l IH]; [reflexivity|].
    cbn [flat_map]. rewrite map_app, IH. reflexivity.
  - induction (instances NETCLRJit.Name dstJ) as [|r l IH]; [reflexivity|].
    cbn [flat_map]. rewrite map_app, IH. reflexivity.
Qed.

(** X13. [buildClrExceptions] and [buildClrJIT] set disjoint descriptors:
    they can be run in either order, running one of them twice changes
    nothing, and after both each collector sends what it sends after its
    own build alone. *)
Theorem X13_clr_builds_are_independent (c : netframework.Collector) (ch : Chan) :
  let both := buildClrJIT ns name cj (buildClrExceptions ns name ce c) in
  both = buildClrExceptions ns name ce (buildClrJIT ns name cj c) /\
  buildClrExceptions ns name ce both = both /\
  buildClrJIT ns name cj both = both /\
  miSession both = miSession c /\
  collectClrExceptions both ch = collectClrExceptions (buildClrExceptions ns name ce c) ch /\
  collectClrJIT both ch = collectClrJIT (buildClrJIT ns name cj c) ch.
Proof.
  cbv zeta. repeat (split; [reflexivity|]). reflexivity.
Qed.

(** X14. With a zero [Frequency_PerfTime] the time-in-JIT value of a row
    of 32-bit counters is +Inf when [PercentTimeinJit] is positive and NaN
    when it is zero too; with a zero [PercentTimeinJit] and a non-zero
    frequency it is 0. *)
Theorem X14_time_in_jit_zero_operands (row : Win32_PerfRawData_NETFramework_NETCLRJit) :
  uint32 (PercentTimeinJit row) -> uint32 (Frequency_PerfTime row) ->
  (Frequency_PerfTime row = 0 -> PercentTimeinJit row <> 0 ->
     timeInJitValue row = S754_infinity false) /\
  (Frequency_PerfTime row = 0 -> PercentTimeinJit row = 0 -> timeInJitValue row = S754_nan) /\
  (Frequency_PerfTime row <> 0 -> PercentTimeinJit row = 0 -> timeInJitValue row = zero).
Proof.
  unfold uint32, timeInJitValue. intros Hp Hf. split; [|split].
  - intros -> Hnz. destruct (PercentTimeinJit row) as [|p|p]; try lia.
    destruct (ofZ_pos p) as (m & -> & _); [lia|]. reflexivity.
  - intros -> ->. reflexivity.
  - intros Hnz ->. destruct (Frequency_PerfTime row) as [|f|f]; try lia.
    destruct (ofZ_pos f) as (m & -> & _); [lia|]. reflexivity.
Qed.

End NetFrameworkMore.

(** ** vmware: build then collect, panics, messages *)

Section VMwareMore.

Import vmware.

Variable ns : string.
Variables MBToBytes MilliSecToSec : float64 -> float64.
Variable CounterType : Type.
Variable CounterTypeRaw : CounterType.
Variable InstancesTotal : list string.
Variable NewCollector :
  forall T : Type, CounterType -> string -> list string -> pdh.Collector T * error.



(** X16. A query that succeeds without a row stops [Collect] by a panic,
    with no error returned.  When it is the CPU query, nothing is sent and
    the memory query is not run: the memory slice is left as it was.  When
    it is the memory query, after a CPU query that answered a row, the
    seven CPU samples have been sent before the panic. *)
Theorem X16_collect_panics_on_empty_result (w : World) :
  (pdh.Collect (perfDataCollectorCPU (self w)) (perfDataObjectCPU (self w)) = ([], None) ->
   Collect MBToBytes MilliSecToSec w =
     Panics "runtime error: index out of range" (afterCPU [] w) /\
   perfDataObjectMemory (self (final (Collect MBToBytes MilliSecToSec w)))
     = perfDataObjectMemory (self w) /\
   ch (final (Collect MBToBytes MilliSecToSec w)) = ch w) /\
  (forall rc restc,
   hasDescs (self w) = true ->
   pdh.Collect (perfDataCollectorCPU (self w)) (perfDataObjectCPU (self w))
     = (rc :: restc, None) ->
   pdh.Collect (perfDataCollectorMemory (self w)) (perfDataObjectMemory (self w)) = ([], None) ->
   Collect MBToBytes MilliSecToSec w =
     Panics "runtime error: index out of range"
       (afterMemory [] (emitAll (cpuSamples MilliSecToSec (self w) rc) (afterCPU (rc :: restc) w))) /\
   ch (final (Collect MBToBytes MilliSecToSec w)) =
     (ch w ++ cpuSamples MilliSecToSec (self w) rc)%list /\
   List.length (cpuSamples MilliSecToSec (self w) rc) = 7%nat).
Proof.
  split.
  - intros HC.
    assert (Hrun : Collect MBToBytes MilliSecToSec w =
                   Panics "runtime error: index out of range" (afterCPU [] w)).
    { unfold Collect. unfold bind at 1. now rewrite (collectCpu_empty MilliSecToSec w HC). }
    rewrite Hrun. repeat split.
  - intros rc restc Hd HC HM.
    assert (Hrun : Collect MBToBytes MilliSecToSec w =
              Panics "runtime error: index out of range"
                (afterMemory [] (emitAll (cpuSamples MilliSecToSec (self w) rc)
                                   (afterCPU (rc :: restc) w)))).
    { unfold Collect. unfold bind at 1. rewrite (collectCpu_rows MilliSecToSec w rc restc Hd HC).
      unfold bind at 1.
      now rewrite (collectMem_empty MBToBytes
                     (emitAll (cpuSamples MilliSecToSec (self w) rc) (afterCPU (rc :: restc) w))
                     HM). }
    rewrite Hrun. split; [reflexivity|]. split; [reflexivity|].
    now apply cpuSamples_length.
Qed.

(** X17. The messages of the joined errors.  When both creations fail,
    the error of [Build] reads as the two wrapped messages on two lines;
    when both queries fail, so does the error of [Collect], each cause
    being wrapped twice (by the sub-collector and by [Collect]). *)
Theorem X17_joined_error_messages (c : Collector) (w : World) pc pm e1 e2 dstC dstM q1 q2 :
  NewCollector perfDataCounterValuesCPU CounterTypeRaw "VM Processor" InstancesTotal
    = (pc, Some e1) ->
  NewCollector perfDataCounterValuesMemory CounterTypeRaw "VM Memory" [] = (pm, Some e2) ->
  pdh.Collect (perfDataCollectorCPU (self w)) (perfDataObjectCPU (self w)) = (dstC, Some q1) ->
  pdh.Collect (perfDataCollectorMemory (self w)) (perfDataObjectMemory (self w))
    = (dstM, Some q2) ->
  option_map ErrorText (snd (Build ns CounterType CounterTypeRaw InstancesTotal NewCollector c)) =
    Some (("failed to create VM Processor collector: " ++ ErrorText e1) ++
          String "010"%char ("failed to create VM Memory collector: " ++ ErrorText e2)) /\
  option_map (option_map ErrorText) (returned (Collect MBToBytes MilliSecToSec w)) =
    Some (Some
      (("failed collecting vmware cpu metrics: " ++
        "failed to collect VM CPU metrics: " ++ ErrorText q1) ++
       String "010"%char
         ("failed collecting vmware memory metrics: " ++
          "failed to collect VM Memory metrics: " ++ ErrorText q2))).
Proof.
  intros HC HM HqC HqM. split.
  - unfold Build. rewrite HC, HM. reflexivity.
  - unfold Collect. unfold bind at 1. rewrite (collectCpu_error MilliSecToSec w dstC q1 HqC).
    unfold bind at 1. rewrite (collectMem_error MBToBytes (afterCPU dstC w) dstM q2 HqM).
    reflexivity.
Qed.

End VMwareMore.

(** ** The further properties at concrete inputs *)

(** X2, at the example host. *)
Lemma X2_witness :
  CoInitializeEx examples.taskHost = None /\ ClassIDFrom examples.taskHost = None /\
  CreateInstance examples.taskHost = (true, None) /\ QueryInterface examples.taskHost = None /\
  Connect examples.taskHost = None /\ GetFolder examples.taskHost = inl examples.taskTree /\
  scheduled_task.healthy examples.taskTree = true /\
  option_map (fun r => map scheduled_task.Path (fst r))
    (returned (scheduled_task.getScheduledTasks examples.taskHost examples.emptyWorld))
    = Some ["/backup"; "/Microsoft/scan"; "/Microsoft/Windows/defrag"].
Proof.
  repeat (split; [reflexivity|]).
  rewrite (X2_getScheduledTasks_lists_every_task examples.taskHost examples.taskTree
             examples.emptyWorld eq_refl eq_refl eq_refl eq_refl eq_refl eq_refl eq_refl).
  vm_compute. reflexivity.
Defined.

(** X3, at an access-denied OLE error. *)
Lemma X3_witness :
  AsOleError (oleError 5 "access is denied") = Some 5 /\ 5 <> S_OK /\
  5 <> scheduled_task.S_FALSE /\
  returned (scheduled_task.getScheduledTasks examples.refusedHost examples.emptyWorld)
    = Some ([], Some (oleError 5 "access is denied")).
Proof.
  assert (H0 : 5 <> S_OK) by discriminate.
  assert (H1 : 5 <> scheduled_task.S_FALSE) by discriminate.
  split; [reflexivity|]. split; [exact H0|]. split; [exact H1|].
  unfold examples.refusedHost.
  rewrite (proj1 (X3_CoInitializeEx_errors (oleError 5 "access is denied") None (true, None)
                    None None (inl examples.taskTree) examples.emptyWorld) 5 eq_refl H0 H1).
  reflexivity.
Defined.

(** X4, at a host without a scheduler object. *)
Lemma X4_witness :
  CoInitializeEx examples.noSchedulerHost = None /\
  ClassIDFrom examples.noSchedulerHost = None /\
  CreateInstance examples.noSchedulerHost = (false, None) /\
  returned (scheduled_task.collect
              (scheduled_task.New examples.reEmpty examples.reAny None)
              examples.noSchedulerHost examples.emptyWorld) = Some None.
Proof.
  repeat (split; [reflexivity|]).
  rewrite (X4_collect_silent_without_scheduler
             (scheduled_task.New examples.reEmpty examples.reAny None)
             examples.noSchedulerHost examples.emptyWorld eq_refl eq_refl eq_refl).
  reflexivity.
Defined.

(** X5, at a host whose root folder cannot be opened. *)
Lemma X5_witness :
  returned (scheduled_task.getScheduledTasks examples.noRootHost examples.emptyWorld)
    = Some ([], Some (errorString "folder not found")) /\
  returned (scheduled_task.collect
              (scheduled_task.New examples.reEmpty examples.reAny None)
              examples.noRootHost examples.emptyWorld)
    = Some (Some (Errorf "get scheduled tasks: " (errorString "folder not found"))).
Proof.
  split; [reflexivity|].
  exact (proj1 (X5_collect_wraps_fetch_error
                  (scheduled_task.New examples.reEmpty examples.reAny None)
                  examples.noRootHost examples.emptyWorld [] _ eq_refl)).
Defined.

(** X6, at the example host. *)
Lemma X6_witness :
  let c0 := scheduled_task.New examples.reEmpty examples.reAny None in
  let c := fst (scheduled_task.Build "windows" c0) in
  scheduled_task.TaskInclude (scheduled_task.config c0) = Some examples.reAny /\
  scheduled_task.TaskExclude (scheduled_task.config c0) = Some examples.reEmpty /\
  returned (scheduled_task.collect c examples.taskHost
              (final (scheduled_task.collect c examples.taskHost examples.emptyWorld)))
    = returned (scheduled_task.collect c examples.taskHost examples.emptyWorld).
Proof.
  split; [reflexivity|]. split; [reflexivity|].
  exact (proj1 (X6_collect_twice_sends_the_same "windows"
                  (scheduled_task.New examples.reEmpty examples.reAny None)
                  examples.reAny examples.reEmpty examples.taskHost examples.emptyWorld
                  eq_refl eq_refl)).
Defined.

(** X7, at a task under [\Microsoft]. *)
Lemma X7_witness :
  let task := examples.taskObject "scan" "\Microsoft\scan" 3 2 267011 in
  GetProperty task "Path" = inl (mkVARIANT 0 "\Microsoft\scan" None None) /\
  snd (scheduled_task.parseTask task) = None /\
  String.length (scheduled_task.Path (fst (scheduled_task.parseTask task))) = 15%nat.
Proof.
  split; [reflexivity|]. split; [reflexivity|].
  exact (proj2 (X7_parseTask_path_has_no_backslash
                  (examples.taskObject "scan" "\Microsoft\scan" 3 2 267011))
               _ eq_refl eq_refl).
Defined.

(** X8, at a task that cannot be read. *)
Lemma X8_witness :
  snd (scheduled_task.parseTask examples.goneTask) = Some (errorString "task is gone") /\
  fst (scheduled_task.parseTask examples.goneTask) = scheduled_task.zeroTask.
Proof.
  split; [reflexivity|].
  exact (proj1 (proj2 (X8_parseTask_all_or_nothing examples.goneTask) _ eq_refl)).
Defined.

(** X9, at a running task. *)
Lemma X9_witness :
  scheduled_task.State examples.runningTask = scheduled_task.TASK_STATE_RUNNING /\
  scheduled_task.labelled (scheduled_task.stateSamples
    (fst (scheduled_task.Build "windows"
            (scheduled_task.New examples.reEmpty examples.reAny None))) examples.runningTask)
    = [("disabled", zero); ("queued", zero); ("ready", zero); ("running", one); ("unknown", zero)].
Proof.
  split; [reflexivity|].
  exact (proj1 (proj2 (proj2 (proj2 (proj2
    (X9_state_samples_one_hot "windows"
       (scheduled_task.New examples.reEmpty examples.reAny None) examples.runningTask)))))
    eq_refl).
Defined.

(** X11, at a session on which both queries fail. *)
Lemma X11_witness :
  let c := examples.failingSession in
  netframework.Query_NETCLRExceptions (netframework.miSession c)
    = ([examples.exceptionsRow "w3wp"], Some (errorString "access denied")) /\
  netframework.Query_NETCLRJit (netframework.miSession c)
    = ([examples.jitRow "w3wp" 50 100], Some (errorString "invalid class")) /\
  netframework.collectClrExceptions c []
    = Returns (Some (Errorf "WMI query failed: " (errorString "access denied"))) [].
Proof.
  split; [reflexivity|]. split; [reflexivity|].
  exact (proj1 (X11_clr_query_error examples.failingSession _ _ _ _ [] eq_refl eq_refl)).
Defined.

(** X12, at the session answering the aggregate row and one process. *)
Lemma X12_witness :
  let c := examples.clrCollector in
  netframework.Query_NETCLRExceptions (netframework.miSession c)
    = ([examples.exceptionsRow "_Global_"; examples.exceptionsRow "w3wp"], None) /\
  netframework.Query_NETCLRJit (netframework.miSession c)
    = ([examples.jitRow "_Global_" 50 100; examples.jitRow "w3wp" 50 100], None) /\
  returned (netframework.collectClrExceptions
    (netframework.buildClrExceptions "windows" "netframework" "clrexceptions" c) []) = Some None.
Proof.
  split; [reflexivity|]. split; [reflexivity|].
  exact (proj1 (X12_clr_four_samples_per_instance "windows" "netframework" "clrexceptions"
                  "clrjit" examples.clrCollector _ _ [] eq_refl eq_refl)).
Defined.

(** X14, at 50 over 0. *)
Lemma X14_witness :
  let row := examples.jitRow "w3wp" 50 0 in
  netframework.uint32 (netframework.NETCLRJit.PercentTimeinJit row) /\
  netframework.uint32 (netframework.NETCLRJit.Frequency_PerfTime row) /\
  netframework.timeInJitValue row = S754_infinity false.
Proof.
  assert (H1 : netframework.uint32
                 (netframework.NETCLRJit.PercentTimeinJit (examples.jitRow "w3wp" 50 0)))
    by (unfold netframework.uint32; cbn; lia).
  assert (H2 : netframework.uint32
                 (netframework.NETCLRJit.Frequency_PerfTime (examples.jitRow "w3wp" 50 0)))
    by (unfold netframework.uint32; cbn; lia).
  split; [exact H1|]. split; [exact H2|].
  apply (proj1 (X14_time_in_jit_zero_operands (examples.jitRow "w3wp" 50 0) H1 H2));
    [reflexivity | discriminate].
Defined.


(** X16, with a CPU query that succeeds without a row. *)
Lemma X16_witness :
  let w := examples.vmWorld (examples.answering []) (examples.answering [examples.memRow]) in
  pdh.Collect (vmware.perfDataCollectorCPU (vmware.self w)) (vmware.perfDataObjectCPU (vmware.self w))
    = ([], None) /\
  panicked (vmware.Collect examples.mbToBytes examples.milliSecToSec w) = true.
Proof.
  split; [reflexivity|].
  rewrite (proj1 (proj1 (X16_collect_panics_on_empty_result examples.mbToBytes
                           examples.milliSecToSec
                           (examples.vmWorld (examples.answering [])
                              (examples.answering [examples.memRow]))) eq_refl)).
  reflexivity.
Defined.

(** X17, on a host without the counter objects and with failing queries. *)
Lemma X17_witness :
  let w := examples.vmWorld (examples.failing "no data") (examples.failing "no data") in
  examples.noCounters vmware.perfDataCounterValuesCPU tt "VM Processor" ["_Total"] =
    (pdh.mkCollector (fun dst => (dst, Some (errorString "collector not initialized"))),
     Some (errorString "counter object not found: VM Processor")) /\
  examples.noCounters vmware.perfDataCounterValuesMemory tt "VM Memory" [] =
    (pdh.mkCollector (fun dst => (dst, Some (errorString "collector not initialized"))),
     Some (errorString "counter object not found: VM Memory")) /\
  pdh.Collect (vmware.perfDataCollectorCPU (vmware.self w)) (vmware.perfDataObjectCPU (vmware.self w))
    = ([], Some (errorString "no data")) /\
  pdh.Collect (vmware.perfDataCollectorMemory (vmware.self w))
    (vmware.perfDataObjectMemory (vmware.self w)) = ([], Some (errorString "no data")) /\
  option_map ErrorText
    (snd (vmware.Build "windows" unit tt ["_Total"] examples.noCounters examples.vmSeeded)) =
    Some (("failed to create VM Processor collector: " ++
           "counter object not found: VM Processor") ++
          String "010"%char ("failed to create VM Memory collector: " ++
                             "counter object not found: VM Memory")).
Proof.
  repeat (split; [reflexivity|]).
  exact (proj1 (X17_joined_error_messages "windows" examples.mbToBytes examples.milliSecToSec
                  unit tt ["_Total"] examples.noCounters examples.vmSeeded
                  (examples.vmWorld (examples.failing "no data") (examples.failing "no data"))
                  _ _ _ _ _ _ _ _ eq_refl eq_refl eq_refl eq_refl)).
Defined.
